(** * remote_ssh.py: a shallow embedding and its verified properties

    The module wraps an SSH transport (asyncssh), the asyncio scheduler and
    a few calls of the Python standard library.  None of these is code of
    the repository, so they appear here as _collaborators_: objects are
    records of scripted behaviours, and the mutable part of the outside
    world (wall clock, connection teardown, local files, the sequence of
    calls issued and the log) is an explicit state threaded through a small
    state-and-exception monad.  The seven coroutines of the module are
    translated statement by statement on top of it.

    Conventions.  Python [str] is [string]; a number that is an [int] in
    the source ([port], [timeout], [check_interval], exit status) is a
    [Z]; clock readings are rationals, and the difference of two readings
    is taken exactly.  Time passes only while a coroutine waits for a
    process or sleeps: a wait lasts until the process is over, a sleep
    lasts the delay asked for, every other call is instantaneous.  A
    collaborator's call may raise any exception unless its description
    says otherwise. *)

From Stdlib Require Import ZArith QArith Qround Qminmax Lia Lqa.
From Stdlib Require Import List String Ascii Strings.Byte Bool DecimalString.
Import ListNotations.

Set Warnings "-register-all".
Local Open Scope string_scope.

(** ** Python values *)

Module Py.

(** Exceptions, by the classes the module's [except] clauses tell apart
    and the classes the transport and the interpreter raise.
    [raise X(msg) from e] stores [e] as the cause. *)
Inductive exn : Type :=
| AsyncsshError (msg : string)      (* asyncssh.Error outside the families below:
                                       PermissionDenied, ConnectionLost,
                                       ChannelOpenError, ... *)
| AsyncsshTimeoutError (msg : string)
                                    (* asyncssh.TimeoutError, a subclass of both
                                       asyncssh.Error and asyncio.TimeoutError *)
| SFTPError (msg : string)          (* asyncssh.SFTPError, a subclass of asyncssh.Error *)
| SFTPNoSuchFile (msg : string)     (* asyncssh.SFTPNoSuchFile, a subclass of
                                       asyncssh.SFTPError: what the server answers
                                       for a remote path that does not exist *)
| FileNotFoundError (msg : string) (cause : option exn)
                                    (* the built-in one, raised for local paths *)
| ValueError (msg : string) (cause : option exn)
| TimeoutError (msg : string) (cause : option exn)   (* asyncio.TimeoutError *)
| OSError (msg : string)            (* OSError outside FileNotFoundError, such as
                                       ConnectionRefusedError *)
| AttributeError (msg : string)
| OtherException (msg : string).    (* every other class *)

(** [isinstance(e, asyncssh.Error)] *)
Definition is_asyncssh_Error (e : exn) : bool :=
  match e with
  | AsyncsshError _ | AsyncsshTimeoutError _ | SFTPError _ | SFTPNoSuchFile _ => true
  | _ => false
  end.

(** [isinstance(e, asyncssh.SFTPError)] *)
Definition is_SFTPError (e : exn) : bool :=
  match e with
  | SFTPError _ | SFTPNoSuchFile _ => true
  | _ => false
  end.

(** [isinstance(e, FileNotFoundError)] *)
Definition is_FileNotFoundError (e : exn) : bool :=
  match e with
  | FileNotFoundError _ _ => true
  | _ => false
  end.

(** [isinstance(e, asyncio.TimeoutError)] *)
Definition is_TimeoutError (e : exn) : bool :=
  match e with
  | TimeoutError _ _ | AsyncsshTimeoutError _ => true
  | _ => false
  end.

(** [isinstance(e, ValueError)] *)
Definition is_ValueError (e : exn) : bool :=
  match e with
  | ValueError _ _ => true
  | _ => false
  end.

(** [str(e)], what an f-string prints for [{e}]. *)
Definition str_exn (e : exn) : string :=
  match e with
  | AsyncsshError m | AsyncsshTimeoutError m | SFTPError m | SFTPNoSuchFile m => m
  | OSError m | AttributeError m | OtherException m => m
  | FileNotFoundError m _ | ValueError m _ | TimeoutError m _ => m
  end.

(** What a stream read hands back: [bytes] or [str]. *)
Inductive stream : Type :=
| Bytes (b : list byte)
| Text (s : string).

(** A Python number as the third component of the result: [round] of a
    float gives an [int], the literal [0.0] is a [float]. *)
Inductive num : Type :=
| Int (z : Z)
| Float (q : Q).

(** [str(z)] for an [int]. *)
Definition str_int (z : Z) : string := NilZero.string_of_int (Z.to_int z).

(** [str(t)] for an [Optional[int]]. *)
Definition str_opt_int (t : option Z) : string :=
  match t with
  | Some z => str_int z
  | None => "None"
  end.

(** [round(x)] with a single argument: the nearest integer, a tie going to
    the even neighbour. *)
Definition round (x : Q) : Z :=
  let f := Qfloor x in
  match Qcompare (x - inject_Z f) (1 # 2) with
  | Lt => f
  | Gt => (f + 1)%Z
  | Eq => if Z.even f then f else (f + 1)%Z
  end.

(** What a collaborator's call comes back with. *)
Inductive result (A : Type) : Type :=
| Success (a : A)
| Failure (e : exn).
Arguments Success {A} a.
Arguments Failure {A} e.

End Py.
Import Py.

(** ** The collaborators *)

(** The SFTP client of a connection. *)
Record SFTPClient : Type := {
  (** [put(local, remote)]: the exception it raises, if any. *)
  sftp_put : string -> string -> option exn;
  (** [get(remote, local)] on a local file system holding the given paths:
      the exception it raises, if any, and the paths present afterwards. *)
  sftp_get : string -> string -> list string -> option exn * list string;
  (** [exists(path)] *)
  sftp_exists : string -> result bool;
  (** [listdir(path)], names in the order the server sends them. *)
  sftp_listdir : string -> result (list string)
}.

(** A remote process, as the transport will report it. *)
Record SSHProcess : Type := {
  (** seconds from the start until the channel closes and the exit status
      is there; [None] for a process that never ends. *)
  proc_runtime : option Q;
  proc_stdout : result stream;      (* [stdout.read()] *)
  proc_stderr : result stream;      (* [stderr.read()] *)
  proc_exit_status : Z              (* [exit_status] *)
}.

(** A connection. *)
Record SSHClient : Type := {
  start_sftp_client : result SFTPClient;
  create_process : string -> result SSHProcess
}.

(** The arguments [connect_ssh] hands to [asyncssh.connect];
    [known_hosts] is always [None]. *)
Record ConnectArgs : Type := {
  ca_host : string;
  ca_port : Z;
  ca_username : string;
  ca_password : string;
  ca_keepalive_interval : Z
}.

(** [asyncssh.connect] *)
Definition Network : Type := ConnectArgs -> result SSHClient.

(** ** The outside world *)

(** Calls issued to the collaborators, oldest first. *)
Inductive Call : Type :=
| CConnect (args : ConnectArgs)
| CClose
| CWaitClosed
| CStartSftp
| CSftpExit
| CPut (local remote : string)
| CGet (remote local : string)
| CExists (path : string)
| CListdir (path : string)
| CPathExists (path : string)
| CCreateProcess (command : string)
| CProcessExit
| CTime
| CProcWaitClosed
| CReadStdout
| CReadStderr
| CExitStatus
| CSleep (seconds : Z).

Inductive Level : Type := INFO | ERROR.

(** A log record: level, the literal text of the f-string and the values
    substituted into it. *)
Inductive LogArg : Type :=
| LStr (s : string)
| LStream (x : stream)
| LInt (z : Z)
| LOptInt (t : option Z)
| LExn (e : exn).

Record LogRecord : Type := {
  log_level : Level;
  log_text : string;
  log_args : list LogArg
}.

Record World : Type := {
  clock : Q;                     (* what [time.time()] reads *)
  close_requested : bool;        (* [close()] was called on the connection *)
  closed : bool;                 (* teardown of the connection is complete *)
  local_fs : list string;        (* paths present on the local file system *)
  calls : list Call;
  logs : list LogRecord
}.

Definition set_clock (t : Q) (w : World) : World :=
  {| clock := t; close_requested := close_requested w; closed := closed w;
     local_fs := local_fs w; calls := calls w; logs := logs w |}.

Definition set_close_requested (b : bool) (w : World) : World :=
  {| clock := clock w; close_requested := b; closed := closed w;
     local_fs := local_fs w; calls := calls w; logs := logs w |}.

Definition set_closed (b : bool) (w : World) : World :=
  {| clock := clock w; close_requested := close_requested w; closed := b;
     local_fs := local_fs w; calls := calls w; logs := logs w |}.

Definition set_local_fs (fs : list string) (w : World) : World :=
  {| clock := clock w; close_requested := close_requested w; closed := closed w;
     local_fs := fs; calls := calls w; logs := logs w |}.

Definition record (c : Call) (w : World) : World :=
  {| clock := clock w; close_requested := close_requested w; closed := closed w;
     local_fs := local_fs w; calls := calls w ++ [c]; logs := logs w |}.

Definition add_log (r : LogRecord) (w : World) : World :=
  {| clock := clock w; close_requested := close_requested w; closed := closed w;
     local_fs := local_fs w; calls := calls w; logs := logs w ++ [r] |}.

(** ** The monad of coroutines *)

(** How running a coroutine ends.  [Hangs] is an [await] that is never
    resumed; [OutOfFuel] is the bound on loop iterations of this model
    being reached, and says nothing about the program. *)
Inductive Outcome (A : Type) : Type :=
| Ok (a : A)
| Raise (e : exn)
| Hangs
| OutOfFuel.
Arguments Ok {A} a.
Arguments Raise {A} e.
Arguments Hangs {A}.
Arguments OutOfFuel {A}.

Definition M (A : Type) : Type := World -> Outcome A * World.

Definition ret {A} (a : A) : M A := fun w => (Ok a, w).

Definition bind {A B} (m : M A) (k : A -> M B) : M B :=
  fun w =>
    match m w with
    | (Ok a, w') => k a w'
    | (Raise e, w') => (Raise e, w')
    | (Hangs, w') => (Hangs, w')
    | (OutOfFuel, w') => (OutOfFuel, w')
    end.

Declare Scope coroutine_scope.
Delimit Scope coroutine_scope with co.
Notation "x <- c ;; k" := (bind c (fun x => k))
  (at level 100, c at next level, right associativity) : coroutine_scope.
Notation "c ;;; k" := (bind c (fun _ => k))
  (at level 100, right associativity) : coroutine_scope.
Local Open Scope coroutine_scope.

Definition raise {A} (e : exn) : M A := fun w => (Raise e, w).

(** A call that cannot fail and only changes the world. *)
Definition effect (f : World -> World) : M unit := fun w => (Ok tt, f w).

(** The outcome of a collaborator's call, entered into the coroutine. *)
Definition lift {A} (r : result A) : M A :=
  match r with
  | Success a => ret a
  | Failure e => raise e
  end.

(** [try: body / except ...]: [handler e] is [Some h] when a clause matches
    [e], and [None] lets [e] go on to the caller. *)
Definition try_except {A} (body : M A) (handler : exn -> option (M A)) : M A :=
  fun w =>
    match body w with
    | (Raise e, w') =>
        match handler e with
        | Some h => h w'
        | None => (Raise e, w')
        end
    | other => other
    end.

(** [async with enter as r: body]: the exit of the context manager runs
    when the body returns and when it raises; the exits of asyncssh's
    SFTP client and process close the channel and raise nothing. *)
Definition async_with {R A} (enter : M R) (exit_ : M unit) (body : R -> M A) : M A :=
  fun w =>
    match enter w with
    | (Ok r, w1) =>
        match body r w1 with
        | (Ok a, w2) => (Ok a, snd (exit_ w2))
        | (Raise e, w2) => (Raise e, snd (exit_ w2))
        | other => other
        end
    | (Raise e, w1) => (Raise e, w1)
    | (Hangs, w1) => (Hangs, w1)
    | (OutOfFuel, w1) => (OutOfFuel, w1)
    end.

Definition log (lvl : Level) (text : string) (args : list LogArg) : M unit :=
  effect (add_log {| log_level := lvl; log_text := text; log_args := args |}).

(** ** Session lifecycle *)

(** The keyword arguments of the call in [connect_ssh]. *)
Definition connect_args (hostname : string) (port : Z) (username password : string)
    (keepalive_interval : Z) : ConnectArgs :=
  {| ca_host := hostname; ca_port := port; ca_username := username;
     ca_password := password; ca_keepalive_interval := keepalive_interval |}.

(** [connect_ssh] *)
Definition connect_ssh (asyncssh_connect : Network)
    (hostname : string) (port : Z) (username password : string)
    (keepalive_interval : Z) : M SSHClient :=
  log INFO "Connecting to SSH server at {hostname}:{port}" [LStr hostname; LInt port] ;;;
  try_except
    (let args := connect_args hostname port username password keepalive_interval in
     effect (record (CConnect args)) ;;;
     ssh_client <- lift (asyncssh_connect args) ;;
     log INFO "Successfully connected to the SSH server." [] ;;;
     ret ssh_client)
    (fun e =>
       if is_asyncssh_Error e then
         Some (log ERROR "SSH connection error: {e}" [LExn e] ;;;
               raise (ValueError ("SSH connection error: " ++ str_exn e) (Some e)))
       else None).

(** [ssh_client.close()]: asks for the teardown; calling it again changes
    nothing. *)
Definition conn_close : M unit :=
  effect (fun w => set_close_requested true (record CClose w)).

(** [await ssh_client.wait_closed()]: resumes once the teardown asked for
    is complete. *)
Definition conn_wait_closed : M unit :=
  fun w =>
    let w' := record CWaitClosed w in
    if closed w' then (Ok tt, w')
    else if close_requested w' then (Ok tt, set_closed true w')
    else (Hangs, w').

(** [disconnect_ssh]; the argument is [None] for Python's [None]. *)
Definition disconnect_ssh (ssh_client : option SSHClient) : M unit :=
  match ssh_client with
  | Some _ =>
      conn_close ;;;
      conn_wait_closed ;;;
      log INFO "SSH connection closed successfully." []
  | None => ret tt
  end.

(** ** File transfer and remote file probe *)

(** Entering [ssh_client.start_sftp_client()]. *)
Definition sftp_enter (ssh_client : SSHClient) : M SFTPClient :=
  effect (record CStartSftp) ;;;
  lift (start_sftp_client ssh_client).

Definition sftp_exit : M unit := effect (record CSftpExit).

(** [await sftp_client.put(local, remote)] *)
Definition put (sftp_client : SFTPClient) (local remote : string) : M unit :=
  effect (record (CPut local remote)) ;;;
  match sftp_put sftp_client local remote with
  | Some e => raise e
  | None => ret tt
  end.

(** [await sftp_client.get(remote, local)] *)
Definition get (sftp_client : SFTPClient) (remote local : string) : M unit :=
  fun w =>
    let w1 := record (CGet remote local) w in
    let '(failure, fs) := sftp_get sftp_client remote local (local_fs w1) in
    let w2 := set_local_fs fs w1 in
    match failure with
    | Some e => (Raise e, w2)
    | None => (Ok tt, w2)
    end.

(** [os.path.exists(path)] *)
Definition os_path_exists (path : string) : M bool :=
  fun w => (Ok (existsb (String.eqb path) (local_fs w)), record (CPathExists path) w).

(** [path.endswith('/')] *)
Fixpoint endswith_sep (path : string) : bool :=
  match path with
  | EmptyString => false
  | String c EmptyString => Ascii.eqb c "/"
  | String _ rest => endswith_sep rest
  end.

(** [posixpath.join] of two components. *)
Definition posix_join (a b : string) : string :=
  if prefix "/" b then b
  else if (a =? "") || endswith_sep a then a ++ b
  else a ++ "/" ++ b.

(** The body of the [for] loop of [find_file]: the first name that
    [startswith] the prefix returns at once. *)
Fixpoint first_with_prefix (pre : string) (file_list : list string) : option string :=
  match file_list with
  | [] => None
  | filename :: rest =>
      if prefix pre filename then Some filename
      else first_with_prefix pre rest
  end.

(** [upload_file] *)
Definition upload_file (ssh_client : SSHClient)
    (local_file_path remote_folder new_filename : string) : M bool :=
  try_except
    (async_with (sftp_enter ssh_client) sftp_exit (fun sftp_client =>
       let remote_path := remote_folder ++ "/" ++ new_filename in
       put sftp_client local_file_path remote_path ;;;
       ret true))
    (fun e =>
       if is_FileNotFoundError e then
         Some (log ERROR "Local file not found: {local_file_path}" [LStr local_file_path] ;;;
               ret false)
       else if is_SFTPError e then
         Some (log ERROR "SFTP error during file upload: {sftp_error}" [LExn e] ;;;
               ret false)
       else None).

(** [check_remote_file] *)
Definition check_remote_file (ssh_client : SSHClient) (remote_file_path : string) : M bool :=
  try_except
    (async_with (sftp_enter ssh_client) sftp_exit (fun sftp_client =>
       effect (record (CExists remote_file_path)) ;;;
       lift (sftp_exists sftp_client remote_file_path)))
    (fun e => if is_SFTPError e then Some (ret false) else None).

(** [find_file] *)
Definition find_file (ssh_client : SSHClient) (remote_directory pre : string)
    : M (option string) :=
  try_except
    (async_with (sftp_enter ssh_client) sftp_exit (fun sftp_client =>
       effect (record (CListdir remote_directory)) ;;;
       file_list <- lift (sftp_listdir sftp_client remote_directory) ;;
       ret (first_with_prefix pre file_list)))
    (fun e => if is_SFTPError e then Some (ret None) else None).

(** ** Command execution *)

(** A process channel in use: the process and the clock reading at which
    it was started. *)
Definition Process : Type := (SSHProcess * Q)%type.

(** Entering [ssh_client.create_process(command)]. *)
Definition proc_enter (ssh_client : SSHClient) (command : string) : M Process :=
  effect (record (CCreateProcess command)) ;;;
  p <- lift (create_process ssh_client command) ;;
  fun w => (Ok (p, clock w), w).

Definition proc_exit : M unit := effect (record CProcessExit).

(** [time.time()].  It reads the clock the waits run on: steps of the
    wall clock and the granularity of its readings are left out. *)
Definition time_time : M Q :=
  fun w => (Ok (clock w), record CTime w).

(** The clock reading at which the process is over, if it ever is. *)
Definition finish_time (process : Process) : option Q :=
  match proc_runtime (fst process) with
  | Some d => Some (snd process + d)%Q
  | None => None
  end.

(** [await process.wait_closed()]: resumes when the process is over. *)
Definition proc_wait_closed (process : Process) : M unit :=
  fun w =>
    let w' := record CProcWaitClosed w in
    match finish_time process with
    | Some t => (Ok tt, set_clock (Qmax (clock w') t) w')
    | None => (Hangs, w')
    end.

(** [await asyncio.wait_for(aw, timeout)]: [aw] goes on for at most
    [timeout] seconds; if it is not over by then it is cancelled and
    [asyncio.TimeoutError] is raised at the deadline. *)
Definition wait_for {A} (aw : M A) (timeout : Z) : M A :=
  fun w =>
    let expired (w' : World) : Outcome A * World :=
      (Raise (TimeoutError "" None),
       set_clock (clock w + Qmax 0 (inject_Z timeout))%Q w') in
    match aw w with
    | (OutOfFuel, w') => (OutOfFuel, w')
    | (Hangs, w') => expired w'
    | (r, w') =>
        if Qlt_le_dec (clock w' - clock w) (inject_Z timeout)
        then (r, w') else expired w'
    end.

(** [await process.stdout.read()] *)
Definition read_stdout (process : Process) : M stream :=
  effect (record CReadStdout) ;;;
  lift (proc_stdout (fst process)).

(** [await process.stderr.read()] *)
Definition read_stderr (process : Process) : M stream :=
  effect (record CReadStderr) ;;;
  lift (proc_stderr (fst process)).

(** [process.exit_status] *)
Definition read_exit_status (process : Process) : M Z :=
  effect (record CExitStatus) ;;;
  ret (proc_exit_status (fst process)).

(** What looking up [exit_status_ready] on a process of asyncssh raises. *)
Definition missing_exit_status_ready : exn :=
  AttributeError "'SSHClientProcess' object has no attribute 'exit_status_ready'".

(** [process.exit_status_ready()].  The process that asyncssh's
    [create_process] hands out has no attribute of this name (it is a
    method of paramiko's [Channel]), so looking it up raises
    [AttributeError] before anything is called. *)
Definition exit_status_ready (process : Process) : M bool :=
  raise missing_exit_status_ready.

(** [await asyncio.sleep(seconds)]; a delay that is not positive only
    yields to the scheduler. *)
Definition sleep (seconds : Z) : M unit :=
  effect (fun w => set_clock (clock w + Qmax 0 (inject_Z seconds))%Q
                     (record (CSleep seconds) w)).

(** [while not process.exit_status_ready(): await asyncio.sleep(check_interval)],
    cut off after [fuel] tests of the condition. *)
Fixpoint poll_until_ready (fuel : nat) (process : Process) (check_interval : Z) : M unit :=
  match fuel with
  | O => fun w => (OutOfFuel, w)
  | S fuel' =>
      ready <- exit_status_ready process ;;
      if ready then ret tt
      else sleep check_interval ;;;
           poll_until_ready fuel' process check_interval
  end.

Section Runtime.

(** [os.path.join], which depends on the platform the client runs on. *)
Variable os_path_join : string -> string -> string.

(** [bytes.decode(encoding, errors=...)], by the names of the codec and of
    the error handler. *)
Variable bytes_decode : string -> string -> list byte -> string.

(** [download_file] *)
Definition download_file (ssh_client : SSHClient)
    (remote_file_path local_folder new_filename : string) : M bool :=
  try_except
    (async_with (sftp_enter ssh_client) sftp_exit (fun sftp_client =>
       let local_path := os_path_join local_folder new_filename in
       get sftp_client remote_file_path local_path ;;;
       os_path_exists local_path))
    (fun e =>
       if is_FileNotFoundError e then
         Some (raise (FileNotFoundError ("Remote file not found: " ++ remote_file_path) (Some e)))
       else if is_SFTPError e then
         Some (raise (ValueError ("SFTP error during file download: " ++ str_exn e) (Some e)))
       else None).

(** What [execute_command] returns: output, exit status, execution time. *)
Definition CommandResult : Type := (string * Z * num)%type.

(** The [try] block of [execute_command]. *)
Definition execute_command_body (fuel : nat) (ssh_client : SSHClient) (command : string)
    (wait_for_response : bool) (check_interval : Z) (timeout : option Z)
    : M CommandResult :=
  async_with (proc_enter ssh_client command) proc_exit (fun process =>
    if wait_for_response then
      start_time <- time_time ;;
      match timeout with
      | Some t => wait_for (proc_wait_closed process) t
      | None => proc_wait_closed process
      end ;;;
      end_time <- time_time ;;
      stdout <- read_stdout process ;;
      stderr <- read_stderr process ;;
      exit_status <- read_exit_status process ;;
      log INFO "Command executed successfully: {command}" [LStr command] ;;;
      log INFO "stdout: {stdout}" [LStream stdout] ;;;
      log ERROR "stderr: {stderr}" [LStream stderr] ;;;
      let execution_time := round (end_time - start_time) in
      log INFO "Execution time: {execution_time} seconds" [LInt execution_time] ;;;
      ret (match stdout with
           | Bytes b => bytes_decode "utf-8" "replace" b
           | Text s => s
           end, exit_status, Int execution_time)
    else
      log INFO "Command sent without waiting for response." [] ;;;
      poll_until_ready fuel process check_interval ;;;
      exit_status <- read_exit_status process ;;
      ret ("", exit_status, Float 0)).

(** The [except] clauses of [execute_command], in their order. *)
Definition execute_command_handler (timeout : option Z) (e : exn)
    : option (M CommandResult) :=
  if is_asyncssh_Error e then
    Some (log ERROR "SSH error during command execution: {ssh_error}" [LExn e] ;;;
          raise (ValueError ("SSH error during command execution: " ++ str_exn e) (Some e)))
  else if is_TimeoutError e then
    Some (log ERROR "Command execution timed out after {timeout} seconds." [LOptInt timeout] ;;;
          raise (TimeoutError ("Command execution timed out after "
                               ++ str_opt_int timeout ++ " seconds.") (Some e)))
  else None.

(** [execute_command]; [fuel] bounds the polling loop of the branch that
    does not wait for the response. *)
Definition execute_command (fuel : nat) (ssh_client : SSHClient) (command : string)
    (wait_for_response : bool) (check_interval : Z) (timeout : option Z)
    : M CommandResult :=
  log INFO "Executing command: {command}" [LStr command] ;;;
  try_except
    (execute_command_body fuel ssh_client command wait_for_response check_interval timeout)
    (execute_command_handler timeout).

End Runtime.

(** ** What the collaborators answer

    The outcome of the transport's part of each file operation, read off
    the scripted collaborators; the properties relate what the module
    returns to these. *)

(** Opening the SFTP client, then [listdir]. *)
Definition listing (ssh_client : SSHClient) (remote_directory : string)
    : result (list string) :=
  match start_sftp_client ssh_client with
  | Success sftp => sftp_listdir sftp remote_directory
  | Failure e => Failure e
  end.

(** Opening the SFTP client, then [exists]. *)
Definition existence (ssh_client : SSHClient) (remote_file_path : string)
    : result bool :=
  match start_sftp_client ssh_client with
  | Success sftp => sftp_exists sftp remote_file_path
  | Failure e => Failure e
  end.

(** Opening the SFTP client, then [put]: the failure, if any. *)
Definition transfer_up (ssh_client : SSHClient) (local remote : string) : option exn :=
  match start_sftp_client ssh_client with
  | Success sftp => sftp_put sftp local remote
  | Failure e => Some e
  end.

(** Opening the SFTP client, then [get] on the local files [fs]: the
    failure, if any, and the local files afterwards. *)
Definition transfer_down (ssh_client : SSHClient) (remote local : string)
    (fs : list string) : option exn * list string :=
  match start_sftp_client ssh_client with
  | Success sftp => sftp_get sftp remote local fs
  | Failure e => (Some e, fs)
  end.

(** [r] is the first entry of [names], in their order, that starts with
    [pre]; nothing when no entry does. *)
Definition first_match (pre : string) (names : list string) (r : option string) : Prop :=
  match r with
  | Some f =>
      exists before after,
        names = (before ++ f :: after)%list
        /\ prefix pre f = true
        /\ Forall (fun g => prefix pre g = false) before
  | None => Forall (fun g => prefix pre g = false) names
  end.

(** What [execute_command] makes of the output it read: [bytes] are
    decoded, text is kept. *)
Definition decoded (bytes_decode : string -> string -> list byte -> string)
    (stdout : stream) : string :=
  match stdout with
  | Bytes b => bytes_decode "utf-8" "replace" b
  | Text s => s
  end.

(** The wait of the waiting branch is over without the timeout, if there
    is one, expiring. *)
Definition ends_in_time (p : SSHProcess) (timeout : option Z) : Prop :=
  match proc_runtime p, timeout with
  | Some d, Some t => Qmax 0 d < inject_Z t
  | Some d, None => True
  | None, _ => False
  end.

(** [needle] occurs in [s]. *)
Definition contains (needle s : string) : Prop :=
  exists before after, s = before ++ needle ++ after.

(** ** Sample collaborators

    Concrete worlds and scripted collaborators on which the properties
    below are run. *)

(** A world in which nothing happened yet, used by the sample runs. *)
Definition fresh_world : World :=
  {| clock := 1700000000; close_requested := false; closed := false;
     local_fs := []; calls := []; logs := [] |}.

(** A server that turns the password down. *)
Definition refusing_network : Network :=
  fun _ => Failure (AsyncsshError "Permission denied").


(** An SFTP server with three files in every directory.  Remote paths
    under [/gone] do not exist and those under [/denied] may not be read;
    [get] writes the local file, except that remote paths under [/void]
    transfer without leaving anything behind and that a local path under
    [/nofolder] cannot be created. *)
Definition sample_sftp : SFTPClient :=
  {| sftp_put := fun local _ =>
       if local =? "missing.txt" then Some (FileNotFoundError "missing.txt" None)
       else None;
     sftp_get := fun remote local fs =>
       if prefix "/void" remote then (None, fs)
       else if prefix "/gone" remote then (Some (SFTPNoSuchFile "No such file"), fs)
       else if prefix "/denied" remote then (Some (SFTPError "Permission denied"), fs)
       else if prefix "/nofolder" local then (Some (FileNotFoundError local None), fs)
       else (None, local :: fs);
     sftp_exists := fun path =>
       if prefix "/denied" path then Failure (SFTPError "Permission denied")
       else if prefix "/nodir/" path then Success false
       else Success true;
     sftp_listdir := fun path =>
       if prefix "/nodir" path then Failure (SFTPNoSuchFile "No such file")
       else Success ["abc.txt"; "abd.txt"; "xyz.txt"] |}.

(** The same server listing its files in another order. *)
Definition reordered_sftp : SFTPClient :=
  {| sftp_put := sftp_put sample_sftp;
     sftp_get := sftp_get sample_sftp;
     sftp_exists := sftp_exists sample_sftp;
     sftp_listdir := fun _ => Success ["abd.txt"; "xyz.txt"; "abc.txt"] |}.

(** A process that runs for the given time, prints raw bytes when the
    command is [cat blob] and text otherwise, and exits with status 3. *)
Definition sample_process (command : string) (seconds : Q) : SSHProcess :=
  {| proc_runtime := Some seconds;
     proc_stdout := if command =? "cat blob"
                    then Success (Bytes [x68; x69; xff])
                    else Success (Text "done");
     proc_stderr := Success (Text "warning");
     proc_exit_status := 3 |}.

(** A connection on which every command takes two and a half seconds,
    [sleep forever] never ends and [nope] cannot be started. *)
Definition sample_client : SSHClient :=
  {| start_sftp_client := Success sample_sftp;
     create_process := fun command =>
       if command =? "nope" then Failure (AsyncsshError "Channel open failed")
       else if command =? "sleep forever" then
         Success {| proc_runtime := None;
                    proc_stdout := Success (Text "");
                    proc_stderr := Success (Text "");
                    proc_exit_status := 0 |}
       else Success (sample_process command (5 # 2)) |}.

Definition reordered_client : SSHClient :=
  {| start_sftp_client := Success reordered_sftp;
     create_process := create_process sample_client |}.

(** A decoder for the sample runs, good for bytes that are ASCII or invalid
    on their own: with the handler [replace] a byte below 128 is kept and
    any other becomes a question mark, which stands for U+FFFD; with
    another handler such a byte is dropped. *)
Definition sample_decode (encoding errors : string) (b : list byte) : string :=
  string_of_list_ascii
    (flat_map (fun x => if (Byte.to_N x <? 128)%N then [ascii_of_byte x]
                        else if errors =? "replace" then ["?"%char]
                        else []) b).

(** A connection that is lost while the output of a command is read. *)
Definition lossy_client : SSHClient :=
  {| start_sftp_client := Failure (AsyncsshError "Connection lost");
     create_process := fun _ =>
       Success {| proc_runtime := Some 1;
                  proc_stdout := Failure (AsyncsshError "Connection lost");
                  proc_stderr := Success (Text "");
                  proc_exit_status := 0 |} |}.

(** ** Proof automation *)

(** Unfolding the coroutines down to the collaborators' answers. *)
Ltac run_sftp :=
  unfold upload_file, download_file, check_remote_file, find_file,
    listing, existence, transfer_up, transfer_down,
    try_except, async_with, sftp_enter, sftp_exit, put, get, os_path_exists,
    bind, log, effect, lift, raise, ret in *;
  cbn in *.

Ltac run_exec :=
  unfold execute_command, execute_command_body, execute_command_handler,
    try_except, async_with, proc_enter, proc_exit, time_time, proc_wait_closed,
    wait_for, read_stdout, read_stderr, read_exit_status, finish_time,
    bind, log, effect, lift, raise, ret in *.


(** ** Further vocabulary for the properties *)

(** A network on which every connection attempt succeeds. *)
Definition accepting_network : Network := fun _ => Success sample_client.

(** A network on which the TCP connection is refused: the failure is an
    [OSError], not an [asyncssh.Error]. *)
Definition unreachable_network : Network :=
  fun _ => Failure (OtherException "Connection refused").

(** The records [connect_ssh] writes after the first one, by what
    [asyncssh.connect] came back with. *)
Definition connect_log_tail (r : result SSHClient) : list LogRecord :=
  match r with
  | Success _ =>
      [{| log_level := INFO; log_text := "Successfully connected to the SSH server.";
          log_args := [] |}]
  | Failure e =>
      if is_asyncssh_Error e
      then [{| log_level := ERROR; log_text := "SSH connection error: {e}";
               log_args := [LExn e] |}]
      else []
  end.

(** [close()] and [wait_closed()] of the connection. *)
Definition is_close_call (c : Call) : bool :=
  match c with
  | CClose | CWaitClosed => true
  | _ => false
  end.

(** From [w] to [w'] the state of the connection is untouched and the
    calls issued, all of them satisfying [P], were added at the end. *)
Definition frame (P : Call -> Prop) (w w' : World) : Prop :=
  close_requested w' = close_requested w
  /\ closed w' = closed w
  /\ exists l, calls w' = (calls w ++ l)%list /\ Forall P l.

(** A coroutine that keeps [frame P], however it ends. *)
Definition respects (P : Call -> Prop) {A} (m : M A) : Prop :=
  forall w, frame P w (snd (m w)).

(** What is not a call on the connection's teardown. *)
Definition leaves_open (c : Call) : Prop := is_close_call c = false.

(** An SFTP server that cannot open the subsystem, with the given
    failure. *)
Definition no_sftp_client (e : exn) : SSHClient :=
  {| start_sftp_client := Failure e;
     create_process := create_process sample_client |}.

(** A connection whose commands run for the given time. *)
Definition timed_client (seconds : Q) : SSHClient :=
  {| start_sftp_client := Success sample_sftp;
     create_process := fun command => Success (sample_process command seconds) |}.

(** A connection on which opening a process channel fails with the given
    exception. *)
Definition failing_client (e : exn) : SSHClient :=
  {| start_sftp_client := Failure e;
     create_process := fun _ => Failure e |}.

(** A network on which nothing listens on the port: the TCP connection
    is refused, which [asyncssh.connect] raises as the [OSError] it is. *)
Definition refused_network : Network :=
  fun _ => Failure (OSError "[Errno 111] Connect call failed").

(** Case analysis on every answer of the collaborators a goal depends on. *)
Ltac collaborator_cases :=
  repeat match goal with
         | |- context [match ?x with _ => _ end] =>
             lazymatch x with
             | context [match _ with _ => _ end] => fail
             | _ => destruct x eqn:?; cbn in *
             end
         | |- context [if ?x then _ else _] =>
             lazymatch x with
             | context [if _ then _ else _] => fail
             | _ => destruct x eqn:?; cbn in *
             end
         end.
(** * Properties *)

(** ** Rounding *)

Lemma round_compat (x y : Q) : x == y -> round x = round y.
Proof.
  intros E. unfold round.
  rewrite (Qfloor_comp _ _ E).
  assert (C : Qcompare (x - inject_Z (Qfloor y)) (1 # 2) = Qcompare (y - inject_Z (Qfloor y)) (1 # 2)).
  { apply Qcompare_comp; [rewrite E|]; reflexivity. }
  now rewrite C.
Qed.

Lemma floor_bounds (x : Q) :
  inject_Z (Qfloor x) <= x /\ x < inject_Z (Qfloor x) + 1.
Proof.
  split; [apply Qfloor_le|].
  pose proof (Qlt_floor x) as H.
  rewrite inject_Z_plus in H. exact H.
Qed.

(** [round x] is one of the two integers around [x], not further than a
    half from it. *)
Lemma round_within_half (x : Q) :
  inject_Z (round x) - x <= 1 # 2 /\ x - inject_Z (round x) <= 1 # 2.
Proof.
  destruct (floor_bounds x) as [Lo Hi].
  unfold round.
  destruct (Qcompare_spec (x - inject_Z (Qfloor x)) (1 # 2)) as [E|L|G].
  - destruct (Z.even (Qfloor x));
      [|rewrite inject_Z_plus; change (inject_Z 1) with 1]; lra.
  - lra.
  - rewrite inject_Z_plus. change (inject_Z 1) with 1. lra.
Qed.

Lemma round_floor_or_next (x : Q) :
  round x = Qfloor x \/ round x = (Qfloor x + 1)%Z.
Proof.
  unfold round.
  destruct (Qcompare (x - inject_Z (Qfloor x)) (1 # 2)); auto.
  destruct (Z.even (Qfloor x)); auto.
Qed.

(** Rounding never goes past an integer that lies above. *)
Lemma round_below_integer (x : Q) (n : Z) : x < inject_Z n -> (round x <= n)%Z.
Proof.
  intros H.
  assert (F : (Qfloor x < n)%Z).
  { rewrite Zlt_Qlt. eapply Qle_lt_trans; [apply Qfloor_le | exact H]. }
  destruct (round_floor_or_next x) as [-> | ->]; lia.
Qed.

Lemma round_nonneg (x : Q) : 0 <= x -> (0 <= round x)%Z.
Proof.
  intros H.
  assert (F : (0 <= Qfloor x)%Z).
  { change 0%Z with (Qfloor 0). now apply Qfloor_resp_le. }
  destruct (round_floor_or_next x) as [-> | ->]; lia.
Qed.

(** ** Session lifecycle *)

(** A session is handed over only when [asyncssh.connect] produced it. *)
Lemma connect_ssh_session_origin (net : Network) hostname port username password ka
    (w : World) (c : SSHClient) :
  fst (connect_ssh net hostname port username password ka w) = Ok c ->
  net (connect_args hostname port username password ka) = Success c.
Proof.
  unfold connect_ssh, connect_args, try_except, bind, log, effect, lift; cbn.
  destruct (net _) as [c'|e]; cbn.
  - now intros [= ->].
  - destruct (is_asyncssh_Error e); cbn; discriminate.
Qed.

(** C5, as amended.  Whenever [asyncssh.connect] fails with an
    [asyncssh.Error] (an authentication failure or a failure of the SSH
    transport), [connect_ssh] raises the module's connection error, a
    [ValueError] whose cause is that failure, and hands no session to the
    caller. *)
Theorem connect_ssh_failure_is_wrapped (net : Network)
    hostname port username password ka (w : World) (e : exn) :
  net (connect_args hostname port username password ka) = Failure e ->
  is_asyncssh_Error e = true ->
  fst (connect_ssh net hostname port username password ka w)
    = Raise (ValueError ("SSH connection error: " ++ str_exn e) (Some e))
  /\ forall c, fst (connect_ssh net hostname port username password ka w) <> Ok c.
Proof.
  intros Hnet He.
  assert (R : fst (connect_ssh net hostname port username password ka w)
              = Raise (ValueError ("SSH connection error: " ++ str_exn e) (Some e))).
  { unfold connect_ssh, connect_args, try_except, bind, log, effect, lift in *; cbn.
    rewrite Hnet; cbn. rewrite He; cbn. reflexivity. }
  split; [exact R|]. intros c. rewrite R. discriminate.
Qed.

(** Exceptions of [asyncssh.connect] outside [asyncssh.Error] are not
    caught. *)
Lemma connect_ssh_other_exceptions_propagate (net : Network)
    hostname port username password ka (w : World) (e : exn) :
  net (connect_args hostname port username password ka) = Failure e ->
  is_asyncssh_Error e = false ->
  fst (connect_ssh net hostname port username password ka w) = Raise e.
Proof.
  intros Hnet He.
  unfold connect_ssh, try_except, bind, log, effect, lift in *; cbn.
  rewrite Hnet; cbn. now rewrite He.
Qed.

Lemma connect_ssh_failure_is_wrapped_witness :
  fst (connect_ssh refusing_network "host" 22 "user" "secret" 30 fresh_world)
    = Raise (ValueError "SSH connection error: Permission denied"
               (Some (AsyncsshError "Permission denied")))
  /\ forall c, fst (connect_ssh refusing_network "host" 22 "user" "secret" 30 fresh_world)
               <> Ok c.
Proof.
  apply (connect_ssh_failure_is_wrapped refusing_network "host" 22 "user" "secret" 30
           fresh_world (AsyncsshError "Permission denied")); reflexivity.
Defined.

(** C5 as stated fails: a refused TCP connection is a transport failure
    during connect, [asyncssh.connect] raises it as an [OSError], the
    handler of [connect_ssh] names only [asyncssh.Error], and the caller
    gets the [OSError] itself, not a [ValueError] that wraps it. *)
Lemma connect_ssh_refused_connection_not_wrapped :
  fst (connect_ssh refused_network "host" 22 "user" "secret" 30 fresh_world)
    = Raise (OSError "[Errno 111] Connect call failed")
  /\ ~ (exists msg cause,
          fst (connect_ssh refused_network "host" 22 "user" "secret" 30 fresh_world)
          = Raise (ValueError msg cause)).
Proof.
  split; [reflexivity|]. intros (msg & cause & H). discriminate H.
Qed.

(** C6. [disconnect_ssh] with no session changes nothing and returns; with
    a session, whatever state the connection is in (open, or closed by an
    earlier call), it returns without raising, having called [close()] and
    then [wait_closed()], and the teardown is complete when it returns. *)
Theorem disconnect_ssh_safe (w : World) :
  disconnect_ssh None w = (Ok tt, w)
  /\ forall c : SSHClient,
       fst (disconnect_ssh (Some c) w) = Ok tt
       /\ closed (snd (disconnect_ssh (Some c) w)) = true
       /\ calls (snd (disconnect_ssh (Some c) w)) = (calls w ++ [CClose; CWaitClosed])%list
       /\ fst (disconnect_ssh (Some c) (snd (disconnect_ssh (Some c) w))) = Ok tt.
Proof.
  split; [reflexivity|]. intros c.
  unfold disconnect_ssh, conn_close, conn_wait_closed, bind, log, effect; cbn.
  destruct (closed w) eqn:E; cbn; rewrite ?E; cbn;
    repeat split; try reflexivity; now rewrite <- app_assoc.
Qed.

(** ** File transfer and remote file probe *)

Lemma first_with_prefix_is_first (pre : string) (names : list string) :
  first_match pre names (first_with_prefix pre names).
Proof.
  induction names as [|f rest IH]; cbn.
  - constructor.
  - destruct (prefix pre f) eqn:P; cbn.
    + exists [], rest. repeat split; auto.
    + destruct (first_with_prefix pre rest) as [g|]; cbn in *.
      * destruct IH as (before & after & -> & Pg & Hb).
        exists (f :: before), after. repeat split; auto.
      * constructor; auto.
Qed.

Lemma first_with_prefix_find (pre : string) (names : list string) :
  first_with_prefix pre names = find (prefix pre) names.
Proof.
  induction names as [|f rest IH]; cbn; [reflexivity|].
  now destruct (prefix pre f).
Qed.

(** C9, as amended.  When the listing succeeds, [find_file] returns the
    first entry, in listing order, whose name starts with the prefix, and
    nothing when no entry does; when the listing fails with an SFTP error
    ([asyncssh.SFTPError]) it returns nothing. *)
Theorem find_file_first_in_listing_order (ssh_client : SSHClient)
    (remote_directory pre : string) (w : World) :
  (forall names, listing ssh_client remote_directory = Success names ->
     exists r, fst (find_file ssh_client remote_directory pre w) = Ok r
               /\ first_match pre names r)
  /\ (forall e, listing ssh_client remote_directory = Failure e ->
        is_SFTPError e = true ->
        fst (find_file ssh_client remote_directory pre w) = Ok None).
Proof.
  split.
  - intros names L. exists (first_with_prefix pre names).
    split; [|apply first_with_prefix_is_first].
    run_sftp. destruct (start_sftp_client ssh_client) as [sftp|e]; [|discriminate].
    cbn. rewrite L. reflexivity.
  - intros e L S. run_sftp.
    destruct (start_sftp_client ssh_client) as [sftp|e0]; cbn.
    + rewrite L; cbn. now rewrite S.
    + injection L as ->. now rewrite S.
Qed.

Lemma find_file_first_in_listing_order_witness :
  (exists r, fst (find_file sample_client "/data" "ab" fresh_world) = Ok r
             /\ first_match "ab" ["abc.txt"; "abd.txt"; "xyz.txt"] r)
  /\ fst (find_file sample_client "/nodir" "ab" fresh_world) = Ok None.
Proof.
  destruct (find_file_first_in_listing_order sample_client "/data" "ab" fresh_world)
    as [Hfound _].
  destruct (find_file_first_in_listing_order sample_client "/nodir" "ab" fresh_world)
    as [_ Hfailed].
  split.
  - exact (Hfound ["abc.txt"; "abd.txt"; "xyz.txt"] eq_refl).
  - exact (Hfailed (SFTPNoSuchFile "No such file") eq_refl eq_refl).
Defined.

(** C9 as stated fails: when the listing fails because the connection is
    lost, which is not an SFTP error, [find_file] does not return nothing,
    it raises. *)
Lemma find_file_raises_on_lost_connection :
  listing lossy_client "/data" = Failure (AsyncsshError "Connection lost")
  /\ fst (find_file lossy_client "/data" "ab" fresh_world)
     = Raise (AsyncsshError "Connection lost")
  /\ fst (find_file lossy_client "/data" "ab" fresh_world) <> Ok None.
Proof. repeat split. discriminate. Qed.

(** The two runs the specification gives. *)
Example find_file_ab :
  fst (find_file sample_client "/data" "ab" fresh_world) = Ok (Some "abc.txt").
Proof. reflexivity. Qed.

Example find_file_qq :
  fst (find_file sample_client "/data" "qq" fresh_world) = Ok None.
Proof. reflexivity. Qed.

(** The match returned follows the listing, not the alphabet. *)
Example find_file_keeps_listing_order :
  fst (find_file reordered_client "/data" "ab" fresh_world) = Ok (Some "abd.txt").
Proof. reflexivity. Qed.

Lemma endswith_sep_split (path : string) :
  endswith_sep path = true -> exists front, path = front ++ "/".
Proof.
  induction path as [|c rest IH]; cbn; [discriminate|].
  destruct rest as [|c' rest'].
  - intros E. apply Ascii.eqb_eq in E. subst c. now exists "".
  - intros E. destruct (IH E) as [front ->]. now exists (String c front).
Qed.

Lemma string_app_assoc (a b c : string) : (a ++ b) ++ c = a ++ b ++ c.
Proof. induction a as [|x a IH]; cbn; [reflexivity | now rewrite IH]. Qed.

(** C10. [upload_file] opens the SFTP client and issues exactly one [put],
    of the local file to the remote folder, a slash and the new file name
    put together as they are; a remote folder that ends in a slash makes a
    destination with two slashes in a row. *)
Theorem upload_file_remote_path (ssh_client : SSHClient) (sftp : SFTPClient)
    (local_file_path remote_folder new_filename : string) (w : World) :
  start_sftp_client ssh_client = Success sftp ->
  calls (snd (upload_file ssh_client local_file_path remote_folder new_filename w))
    = (calls w ++ [CStartSftp;
                   CPut local_file_path (remote_folder ++ "/" ++ new_filename);
                   CSftpExit])%list
  /\ (endswith_sep remote_folder = true ->
      contains "//" (remote_folder ++ "/" ++ new_filename)).
Proof.
  intros S. split.
  - run_sftp. rewrite S; cbn.
    destruct (sftp_put sftp local_file_path _) as [e|]; cbn.
    + destruct (is_FileNotFoundError e); cbn;
        [|destruct (is_SFTPError e); cbn]; now rewrite <- !app_assoc.
    + now rewrite <- !app_assoc.
  - intros E. destruct (endswith_sep_split _ E) as [front ->].
    exists front, new_filename. now rewrite string_app_assoc.
Qed.

Lemma upload_file_remote_path_witness :
  calls (snd (upload_file sample_client "build.tar" "/srv/app/" "app.tar" fresh_world))
    = [CStartSftp; CPut "build.tar" "/srv/app//app.tar"; CSftpExit]
  /\ contains "//" "/srv/app//app.tar".
Proof.
  destruct (upload_file_remote_path sample_client sample_sftp
              "build.tar" "/srv/app/" "app.tar" fresh_world eq_refl) as [Hcalls Hslashes].
  split; [exact Hcalls | exact (Hslashes eq_refl)].
Defined.

(** C8, as amended.  [upload_file] and [check_remote_file] answer a
    failure of the transfer with [False] instead of raising when it is of
    a class their [except] clauses name: the upload when the local file is
    missing ([FileNotFoundError]) or the SFTP protocol fails
    ([asyncssh.SFTPError]), the existence check when the SFTP protocol
    fails; without a failure they return [True], respectively what the
    server answered. *)
Theorem upload_and_probe_failures_return_false (ssh_client : SSHClient)
    (local_file_path remote_folder new_filename remote_file_path : string) (w : World) :
  (forall e,
     transfer_up ssh_client local_file_path (remote_folder ++ "/" ++ new_filename) = Some e ->
     is_FileNotFoundError e = true \/ is_SFTPError e = true ->
     fst (upload_file ssh_client local_file_path remote_folder new_filename w) = Ok false)
  /\ (transfer_up ssh_client local_file_path (remote_folder ++ "/" ++ new_filename) = None ->
      fst (upload_file ssh_client local_file_path remote_folder new_filename w) = Ok true)
  /\ (forall e,
        existence ssh_client remote_file_path = Failure e ->
        is_SFTPError e = true ->
        fst (check_remote_file ssh_client remote_file_path w) = Ok false)
  /\ (forall b,
        existence ssh_client remote_file_path = Success b ->
        fst (check_remote_file ssh_client remote_file_path w) = Ok b).
Proof.
  split; [|split; [|split]].
  - intros e T K. run_sftp.
    destruct (start_sftp_client ssh_client) as [sftp|e0]; cbn.
    + rewrite T; cbn.
      destruct e; cbn in *; try reflexivity; destruct K; discriminate.
    + injection T as ->.
      destruct e; cbn in *; try reflexivity; destruct K; discriminate.
  - intros T. run_sftp.
    destruct (start_sftp_client ssh_client) as [sftp|e0]; cbn; [|discriminate].
    now rewrite T.
  - intros e X S. run_sftp.
    destruct (start_sftp_client ssh_client) as [sftp|e0]; cbn.
    + rewrite X; cbn. now rewrite S.
    + injection X as ->. now rewrite S.
  - intros b X. run_sftp.
    destruct (start_sftp_client ssh_client) as [sftp|e0]; cbn; [|discriminate].
    now rewrite X.
Qed.

Lemma upload_and_probe_failures_return_false_witness :
  fst (upload_file sample_client "missing.txt" "/srv" "a.txt" fresh_world) = Ok false
  /\ fst (upload_file sample_client "build.tar" "/srv" "a.txt" fresh_world) = Ok true
  /\ fst (check_remote_file sample_client "/denied/a.txt" fresh_world) = Ok false
  /\ fst (check_remote_file sample_client "/srv/a.txt" fresh_world) = Ok true.
Proof.
  destruct (upload_and_probe_failures_return_false sample_client
              "missing.txt" "/srv" "a.txt" "/denied/a.txt" fresh_world)
    as (Hup & _ & Hprobe & _).
  destruct (upload_and_probe_failures_return_false sample_client
              "build.tar" "/srv" "a.txt" "/srv/a.txt" fresh_world)
    as (_ & Hup' & _ & Hprobe').
  split; [|split; [|split]].
  - exact (Hup (FileNotFoundError "missing.txt" None) eq_refl (or_introl eq_refl)).
  - exact (Hup' eq_refl).
  - exact (Hprobe (SFTPError "Permission denied") eq_refl eq_refl).
  - exact (Hprobe' true eq_refl).
Defined.

(** C8 as stated fails: when the connection is lost while the SFTP client
    is opened, a failure that is neither a [FileNotFoundError] nor an SFTP
    error, the upload and the existence check do not return [False], they
    raise it to the caller. *)
Lemma upload_and_probe_raise_on_lost_connection :
  fst (upload_file lossy_client "build.tar" "/srv" "a.txt" fresh_world)
    = Raise (AsyncsshError "Connection lost")
  /\ fst (check_remote_file lossy_client "/srv/a.txt" fresh_world)
     = Raise (AsyncsshError "Connection lost")
  /\ fst (upload_file lossy_client "build.tar" "/srv" "a.txt" fresh_world) <> Ok false
  /\ fst (check_remote_file lossy_client "/srv/a.txt" fresh_world) <> Ok false.
Proof. repeat split; discriminate. Qed.

(** Only the two classes named by the [except] clauses are absorbed: any
    other exception of the transfer leaves [upload_file] as it is. *)
Lemma upload_file_other_exceptions_propagate (ssh_client : SSHClient)
    (local_file_path remote_folder new_filename : string) (w : World) (e : exn) :
  transfer_up ssh_client local_file_path (remote_folder ++ "/" ++ new_filename) = Some e ->
  is_FileNotFoundError e = false ->
  is_SFTPError e = false ->
  fst (upload_file ssh_client local_file_path remote_folder new_filename w) = Raise e.
Proof.
  intros T F S. run_sftp.
  destruct (start_sftp_client ssh_client) as [sftp|e0]; cbn.
  - rewrite T; cbn. now rewrite F, S.
  - injection T as ->. now rewrite F, S.
Qed.

(** Likewise for [check_remote_file] and exceptions outside
    [asyncssh.SFTPError]. *)
Lemma check_remote_file_other_exceptions_propagate (ssh_client : SSHClient)
    (remote_file_path : string) (w : World) (e : exn) :
  existence ssh_client remote_file_path = Failure e ->
  is_SFTPError e = false ->
  fst (check_remote_file ssh_client remote_file_path w) = Raise e.
Proof.
  intros X S. run_sftp.
  destruct (start_sftp_client ssh_client) as [sftp|e0]; cbn.
  - rewrite X; cbn. now rewrite S.
  - injection X as ->. now rewrite S.
Qed.

(** X21. [download_file] turns a [FileNotFoundError] of the transfer,
    which is what a local folder that does not exist gives, into a
    [FileNotFoundError] with the text [Remote file not found] and the
    remote path; it turns an SFTP error into a [ValueError]; and when the
    transfer raises nothing it returns whether the destination is present
    on the local file system afterwards: [True] only if it is there,
    [False] if the transfer left nothing behind. *)
Theorem download_file_outcomes (os_path_join : string -> string -> string)
    (ssh_client : SSHClient) (remote_file_path local_folder new_filename : string)
    (w : World) :
  (forall e fs,
     transfer_down ssh_client remote_file_path (os_path_join local_folder new_filename)
       (local_fs w) = (Some e, fs) ->
     is_FileNotFoundError e = true ->
     fst (download_file os_path_join ssh_client remote_file_path local_folder new_filename w)
       = Raise (FileNotFoundError ("Remote file not found: " ++ remote_file_path) (Some e)))
  /\ (forall e fs,
        transfer_down ssh_client remote_file_path (os_path_join local_folder new_filename)
          (local_fs w) = (Some e, fs) ->
        is_SFTPError e = true ->
        fst (download_file os_path_join ssh_client remote_file_path local_folder new_filename w)
          = Raise (ValueError ("SFTP error during file download: " ++ str_exn e) (Some e)))
  /\ (forall fs,
        transfer_down ssh_client remote_file_path (os_path_join local_folder new_filename)
          (local_fs w) = (None, fs) ->
        fst (download_file os_path_join ssh_client remote_file_path local_folder new_filename w)
          = Ok (existsb (String.eqb (os_path_join local_folder new_filename)) fs))
  /\ (fst (download_file os_path_join ssh_client remote_file_path local_folder new_filename w)
        = Ok true ->
      In (os_path_join local_folder new_filename)
         (local_fs (snd (download_file os_path_join ssh_client remote_file_path
                           local_folder new_filename w)))).
Proof.
  split; [|split; [|split]].
  - intros e fs T K. run_sftp.
    destruct (start_sftp_client ssh_client) as [sftp|e0]; cbn.
    + rewrite T; cbn. now rewrite K.
    + injection T as -> _. now rewrite K.
  - intros e fs T K. run_sftp.
    destruct (start_sftp_client ssh_client) as [sftp|e0]; cbn.
    + rewrite T; cbn. destruct e; try discriminate; reflexivity.
    + injection T as -> _. destruct e; try discriminate; reflexivity.
  - intros fs T. run_sftp.
    destruct (start_sftp_client ssh_client) as [sftp|e0]; cbn; [|discriminate].
    now rewrite T.
  - run_sftp.
    destruct (start_sftp_client ssh_client) as [sftp|e0]; cbn.
    + destruct (sftp_get sftp _ _ _) as [[e|] fs]; cbn.
      * destruct (is_FileNotFoundError e); cbn; [discriminate|].
        destruct (is_SFTPError e); cbn; discriminate.
      * intros [= E]. apply existsb_exists in E. destruct E as (x & I & E).
        apply String.eqb_eq in E. now subst x.
    + destruct (is_FileNotFoundError e0); cbn; [discriminate|].
      destruct (is_SFTPError e0); cbn; discriminate.
Qed.

Lemma download_file_outcomes_witness :
  fst (download_file posix_join sample_client "/srv/a" "/nofolder" "a" fresh_world)
    = Raise (FileNotFoundError "Remote file not found: /srv/a"
               (Some (FileNotFoundError "/nofolder/a" None)))
  /\ fst (download_file posix_join sample_client "/denied/a" "/tmp" "a" fresh_world)
       = Raise (ValueError "SFTP error during file download: Permission denied"
                  (Some (SFTPError "Permission denied")))
  /\ fst (download_file posix_join sample_client "/void/a" "/tmp" "a" fresh_world)
       = Ok false
  /\ fst (download_file posix_join sample_client "/srv/a" "/tmp" "a" fresh_world)
       = Ok true
  /\ In "/tmp/a"
        (local_fs (snd (download_file posix_join sample_client "/srv/a" "/tmp" "a"
                          fresh_world))).
Proof.
  destruct (download_file_outcomes posix_join sample_client "/srv/a" "/nofolder" "a"
              fresh_world) as (Hnofolder & _).
  destruct (download_file_outcomes posix_join sample_client "/denied/a" "/tmp" "a" fresh_world)
    as (_ & Hdenied & _).
  destruct (download_file_outcomes posix_join sample_client "/void/a" "/tmp" "a" fresh_world)
    as (_ & _ & Hvoid & _).
  destruct (download_file_outcomes posix_join sample_client "/srv/a" "/tmp" "a" fresh_world)
    as (_ & _ & Hsrv & Hthere).
  split; [|split; [|split; [|split]]].
  - exact (Hnofolder (FileNotFoundError "/nofolder/a" None) [] eq_refl eq_refl).
  - exact (Hdenied (SFTPError "Permission denied") [] eq_refl eq_refl).
  - exact (Hvoid [] eq_refl).
  - exact (Hsrv ["/tmp/a"] eq_refl).
  - exact (Hthere (Hsrv ["/tmp/a"] eq_refl)).
Defined.

(** C7.  The claim and the docstring of [download_file] promise a
    [FileNotFoundError] for a remote path that does not exist; the code
    does otherwise.  The server's answer for such a path reaches the
    client as [asyncssh.SFTPNoSuchFile], an SFTP error, so the clause for
    [FileNotFoundError] is passed over and [download_file] raises the
    [ValueError] of its transfer errors. *)
Theorem download_file_missing_remote_path (os_path_join : string -> string -> string)
    (ssh_client : SSHClient) (sftp : SFTPClient)
    (remote_file_path local_folder new_filename : string) (w : World)
    (m : string) (fs : list string) :
  start_sftp_client ssh_client = Success sftp ->
  sftp_get sftp remote_file_path (os_path_join local_folder new_filename) (local_fs w)
    = (Some (SFTPNoSuchFile m), fs) ->
  fst (download_file os_path_join ssh_client remote_file_path local_folder new_filename w)
    = Raise (ValueError ("SFTP error during file download: " ++ m)
               (Some (SFTPNoSuchFile m)))
  /\ is_FileNotFoundError
       (ValueError ("SFTP error during file download: " ++ m) (Some (SFTPNoSuchFile m)))
     = false.
Proof.
  intros S G. split; [|reflexivity].
  run_sftp. rewrite S; cbn. rewrite G; cbn. reflexivity.
Qed.

Lemma download_file_missing_remote_path_witness :
  fst (download_file posix_join sample_client "/gone/a" "/tmp" "a" fresh_world)
    = Raise (ValueError "SFTP error during file download: No such file"
               (Some (SFTPNoSuchFile "No such file")))
  /\ is_FileNotFoundError
       (ValueError "SFTP error during file download: No such file"
          (Some (SFTPNoSuchFile "No such file")))
     = false.
Proof.
  exact (download_file_missing_remote_path posix_join sample_client sample_sftp
           "/gone/a" "/tmp" "a" fresh_world "No such file" [] eq_refl eq_refl).
Defined.

(** ** Command execution *)

(** The time the wait for a process takes, on the clock. *)
Lemma wait_duration (c d : Q) : Qmax c (c + d) - c == Qmax 0 d.
Proof.
  destruct (Q.max_spec c (c + d)) as [[L E]|[L E]];
    destruct (Q.max_spec 0 d) as [[L' E']|[L' E']]; rewrite E, E'; lra.
Qed.

(** C1. Waiting without a timeout for a process that ends and whose two
    streams can be read, [execute_command] returns the whole of standard
    output (decoded with replacement if it is bytes, as it is if it is
    text), the exit status of the process, and, as an integer, the time
    that went by on the clock between start and end rounded to the nearest
    whole second.  Standard error is read after standard output; the
    result does not depend on it. *)
Theorem execute_command_waited_result (bytes_decode : string -> string -> list byte -> string)
    (fuel : nat) (ssh_client : SSHClient) (command : string) (check_interval : Z)
    (w : World) (p : SSHProcess) (d : Q) (out err : stream) :
  create_process ssh_client command = Success p ->
  proc_runtime p = Some d ->
  proc_stdout p = Success out ->
  proc_stderr p = Success err ->
  exists elapsed : Z,
    fst (execute_command bytes_decode fuel ssh_client command true
           check_interval None w)
      = Ok (decoded bytes_decode out, proc_exit_status p, Int elapsed)
    /\ elapsed
       = round (clock (snd (execute_command bytes_decode fuel ssh_client command
                              true check_interval None w)) - clock w)
    /\ elapsed = round (Qmax 0 d)
    /\ inject_Z elapsed - Qmax 0 d <= 1 # 2
    /\ Qmax 0 d - inject_Z elapsed <= 1 # 2
    /\ calls (snd (execute_command bytes_decode fuel ssh_client command true
                     check_interval None w))
       = (calls w ++ [CCreateProcess command; CTime; CProcWaitClosed; CTime;
                      CReadStdout; CReadStderr; CExitStatus; CProcessExit])%list.
Proof.
  intros Hp Hd Hout Herr.
  exists (round (Qmax (clock w) (clock w + d) - clock w)).
  assert (R : round (Qmax (clock w) (clock w + d) - clock w) = round (Qmax 0 d))
    by apply round_compat, wait_duration.
  run_exec; cbn. rewrite Hp; cbn. rewrite Hd; cbn.
  rewrite Hout; cbn. rewrite Herr; cbn.
  repeat (split; [reflexivity|]).
  split; [exact R|]. rewrite R.
  split; [apply round_within_half|].
  split; [apply round_within_half|].
  now rewrite <- !app_assoc.
Qed.

Lemma execute_command_waited_result_witness :
  exists elapsed : Z,
    fst (execute_command sample_decode 0 sample_client "cat blob" true 10 None fresh_world)
      = Ok (decoded sample_decode (Bytes [x68; x69; xff]), 3%Z, Int elapsed)
    /\ elapsed
       = round (clock (snd (execute_command sample_decode 0 sample_client "cat blob"
                              true 10 None fresh_world)) - clock fresh_world)
    /\ elapsed = round (Qmax 0 (5 # 2))
    /\ inject_Z elapsed - Qmax 0 (5 # 2) <= 1 # 2
    /\ Qmax 0 (5 # 2) - inject_Z elapsed <= 1 # 2
    /\ calls (snd (execute_command sample_decode 0 sample_client "cat blob" true 10
                     None fresh_world))
       = (calls fresh_world
            ++ [CCreateProcess "cat blob"; CTime; CProcWaitClosed; CTime;
                CReadStdout; CReadStderr; CExitStatus; CProcessExit])%list.
Proof.
  exact (execute_command_waited_result sample_decode 0 sample_client "cat blob" 10
           fresh_world (sample_process "cat blob" (5 # 2)) (5 # 2)
           (Bytes [x68; x69; xff]) (Text "warning")
           eq_refl eq_refl eq_refl eq_refl).
Defined.

(** The sample run itself: two and a half seconds round to two. *)
Example execute_command_waited_run :
  fst (execute_command sample_decode 0 sample_client "cat blob" true 10 None fresh_world)
    = Ok ("hi?", 3%Z, Int 2).
Proof. reflexivity. Qed.

(** C2. Waiting with a timeout: when the process is not over within the
    timeout, [execute_command] raises [asyncio.TimeoutError], with the
    configured timeout in its text, and not the [ValueError] of an
    execution error; when the process ends before the timeout and its
    streams can be read, the call returns and the execution time is at
    most the timeout. *)
Theorem execute_command_timeout (bytes_decode : string -> string -> list byte -> string)
    (fuel : nat) (ssh_client : SSHClient) (command : string) (check_interval : Z)
    (timeout : Z) (w : World) (p : SSHProcess) :
  create_process ssh_client command = Success p ->
  ((forall d, proc_runtime p = Some d -> inject_Z timeout < d) ->
   exists e,
     fst (execute_command bytes_decode fuel ssh_client command true
            check_interval (Some timeout) w) = Raise e
     /\ e = TimeoutError ("Command execution timed out after "
                          ++ str_int timeout ++ " seconds.")
              (Some (TimeoutError "" None))
     /\ is_TimeoutError e = true
     /\ is_ValueError e = false)
  /\ (forall d out err,
        proc_runtime p = Some d ->
        0 <= d ->
        d < inject_Z timeout ->
        proc_stdout p = Success out ->
        proc_stderr p = Success err ->
        exists elapsed : Z,
          fst (execute_command bytes_decode fuel ssh_client command true
                 check_interval (Some timeout) w)
            = Ok (decoded bytes_decode out, proc_exit_status p, Int elapsed)
          /\ elapsed = round (Qmax 0 d)
          /\ (elapsed <= timeout)%Z).
Proof.
  intros Hp. split.
  - intros Hlate. eexists. split; [|split; [reflexivity|split; reflexivity]].
    run_exec; cbn. rewrite Hp; cbn.
    destruct (proc_runtime p) as [d|] eqn:Hd; cbn; [|reflexivity].
    specialize (Hlate d eq_refl).
    destruct (Qlt_le_dec _ _) as [L|L]; cbn; [|reflexivity].
    exfalso. rewrite wait_duration in L.
    destruct (Q.max_spec 0 d) as [[A E]|[A E]]; rewrite E in L; lra.
  - intros d out err Hd Hpos Hfast Hout Herr.
    exists (round (Qmax (clock w) (clock w + d) - clock w)).
    assert (R : round (Qmax (clock w) (clock w + d) - clock w) = round (Qmax 0 d))
      by apply round_compat, wait_duration.
    assert (D : Qmax 0 d == d).
    { destruct (Q.max_spec 0 d) as [[A E]|[A E]]; rewrite E; lra. }
    split; [|split; [exact R|]].
    + run_exec; cbn. rewrite Hp; cbn. rewrite Hd; cbn.
      destruct (Qlt_le_dec _ _) as [L|L]; cbn.
      * rewrite Hout; cbn. rewrite Herr; cbn. reflexivity.
      * exfalso. rewrite wait_duration, D in L. lra.
    + rewrite R. apply round_below_integer. now rewrite D.
Qed.

Lemma execute_command_timeout_witness :
  (exists e,
     fst (execute_command sample_decode 0 sample_client "make" true 10 (Some 2%Z)
            fresh_world) = Raise e
     /\ e = TimeoutError "Command execution timed out after 2 seconds."
              (Some (TimeoutError "" None))
     /\ is_TimeoutError e = true
     /\ is_ValueError e = false)
  /\ (exists elapsed : Z,
        fst (execute_command sample_decode 0 sample_client "make" true 10 (Some 3%Z)
               fresh_world)
          = Ok (decoded sample_decode (Text "done"), 3%Z, Int elapsed)
        /\ elapsed = round (Qmax 0 (5 # 2))
        /\ (elapsed <= 3)%Z).
Proof.
  destruct (execute_command_timeout sample_decode 0 sample_client "make" 10 2
              fresh_world (sample_process "make" (5 # 2)) eq_refl) as [Hlate _].
  destruct (execute_command_timeout sample_decode 0 sample_client "make" 10 3
              fresh_world (sample_process "make" (5 # 2)) eq_refl) as [_ Hfast].
  split.
  - apply Hlate. intros d [= <-]. reflexivity.
  - apply (Hfast (5 # 2) (Text "done") (Text "warning") eq_refl);
      [discriminate | reflexivity | reflexivity | reflexivity].
Defined.




(** The polling loop gets no further than its first test. *)
Lemma poll_until_ready_raises (fuel : nat) (process : Process) (check_interval : Z)
    (w : World) :
  poll_until_ready (S fuel) process check_interval w = (Raise missing_exit_status_ready, w).
Proof. reflexivity. Qed.

(** The polling loop never comes to an end by itself. *)
Lemma poll_until_ready_never_returns (fuel : nat) (process : Process)
    (check_interval : Z) (w : World) :
  fst (poll_until_ready fuel process check_interval w) <> Ok tt.
Proof. destruct fuel; discriminate. Qed.

(** C3.  The claim promises the tuple of the empty string, the exit status
    and [0.0]; the code does not get there.  With the process channel
    open, the first test of the loop looks up [exit_status_ready] on the
    process, which asyncssh's process does not have; the [AttributeError]
    is neither an [asyncssh.Error] nor a timeout, so it leaves
    [execute_command] as it is, with no sleep and no read of the exit
    status in between, and no call of this mode ever returns. *)
Theorem execute_command_no_wait_raises_attribute_error
    (bytes_decode : string -> string -> list byte -> string)
    (ssh_client : SSHClient) (command : string) (check_interval : Z)
    (timeout : option Z) (w : World) (p : SSHProcess) :
  create_process ssh_client command = Success p ->
  (forall fuel,
     fst (execute_command bytes_decode (S fuel) ssh_client command false
            check_interval timeout w) = Raise missing_exit_status_ready)
  /\ (forall fuel,
        calls (snd (execute_command bytes_decode (S fuel) ssh_client command false
                      check_interval timeout w))
        = (calls w ++ [CCreateProcess command; CProcessExit])%list)
  /\ (forall fuel res,
        fst (execute_command bytes_decode fuel ssh_client command false
               check_interval timeout w) <> Ok res).
Proof.
  intros Hp. split; [|split].
  - intros fuel. run_exec; cbn. rewrite Hp; cbn. reflexivity.
  - intros fuel. run_exec; cbn. rewrite Hp; cbn. now rewrite <- !app_assoc.
  - intros [|fuel] res; run_exec; cbn; rewrite Hp; cbn; discriminate.
Qed.

Lemma execute_command_no_wait_raises_attribute_error_witness :
  (forall fuel,
     fst (execute_command sample_decode (S fuel) sample_client "make" false 10 None
            fresh_world) = Raise missing_exit_status_ready)
  /\ (forall fuel,
        calls (snd (execute_command sample_decode (S fuel) sample_client "make" false 10
                      None fresh_world))
        = (calls fresh_world ++ [CCreateProcess "make"; CProcessExit])%list)
  /\ (forall fuel res,
        fst (execute_command sample_decode fuel sample_client "make" false 10 None
               fresh_world) <> Ok res).
Proof.
  exact (execute_command_no_wait_raises_attribute_error sample_decode sample_client
           "make" 10 None fresh_world (sample_process "make" (5 # 2)) eq_refl).
Defined.

(** * Further properties *)

(** ** Session lifecycle *)

(** X1. A session that [connect_ssh] returns is the one [asyncssh.connect]
    produced from a single call with the host, port, user, password and
    keepalive interval as given; [disconnect_ssh] on it right away returns
    without raising, and the connection is closed afterwards. *)
Theorem connect_then_disconnect (net : Network)
    hostname port username password ka (w : World) (c : SSHClient) :
  net (connect_args hostname port username password ka) = Success c ->
  fst (connect_ssh net hostname port username password ka w) = Ok c
  /\ calls (snd (connect_ssh net hostname port username password ka w))
     = (calls w ++ [CConnect (connect_args hostname port username password ka)])%list
  /\ fst (disconnect_ssh (Some c)
            (snd (connect_ssh net hostname port username password ka w))) = Ok tt
  /\ closed (snd (disconnect_ssh (Some c)
                    (snd (connect_ssh net hostname port username password ka w)))) = true
  /\ calls (snd (disconnect_ssh (Some c)
                   (snd (connect_ssh net hostname port username password ka w))))
     = (calls w ++ [CConnect (connect_args hostname port username password ka);
                    CClose; CWaitClosed])%list.
Proof.
  intros Hnet.
  unfold connect_ssh, disconnect_ssh, conn_close, conn_wait_closed,
    try_except, bind, log, effect, lift, ret; cbn.
  rewrite Hnet; cbn.
  destruct (closed w) eqn:E; cbn; rewrite ?E; cbn;
    repeat (split; [reflexivity|]); now rewrite <- !app_assoc.
Qed.

Lemma connect_then_disconnect_witness :
  fst (connect_ssh accepting_network "host" 22 "user" "secret" 30 fresh_world)
    = Ok sample_client
  /\ calls (snd (connect_ssh accepting_network "host" 22 "user" "secret" 30 fresh_world))
     = (calls fresh_world ++ [CConnect (connect_args "host" 22 "user" "secret" 30)])%list
  /\ fst (disconnect_ssh (Some sample_client)
            (snd (connect_ssh accepting_network "host" 22 "user" "secret" 30
                    fresh_world))) = Ok tt
  /\ closed (snd (disconnect_ssh (Some sample_client)
                    (snd (connect_ssh accepting_network "host" 22 "user" "secret" 30
                            fresh_world)))) = true
  /\ calls (snd (disconnect_ssh (Some sample_client)
                   (snd (connect_ssh accepting_network "host" 22 "user" "secret" 30
                           fresh_world))))
     = (calls fresh_world ++ [CConnect (connect_args "host" 22 "user" "secret" 30);
                              CClose; CWaitClosed])%list.
Proof.
  exact (connect_then_disconnect accepting_network "host" 22 "user" "secret" 30
           fresh_world sample_client eq_refl).
Defined.

(** X2. An exception of [asyncssh.connect] that is not an
    [asyncssh.Error], such as the [OSError] of a refused connection,
    leaves [connect_ssh] as it is, not wrapped in a [ValueError]. *)
Theorem connect_ssh_passes_other_exceptions (net : Network)
    hostname port username password ka (w : World) (e : exn) :
  net (connect_args hostname port username password ka) = Failure e ->
  is_asyncssh_Error e = false ->
  fst (connect_ssh net hostname port username password ka w) = Raise e
  /\ logs (snd (connect_ssh net hostname port username password ka w))
     = (logs w ++ [{| log_level := INFO;
                      log_text := "Connecting to SSH server at {hostname}:{port}";
                      log_args := [LStr hostname; LInt port] |}])%list.
Proof.
  intros Hnet He.
  unfold connect_ssh, try_except, bind, log, effect, lift in *; cbn.
  rewrite Hnet; cbn. rewrite He. split; reflexivity.
Qed.

Lemma connect_ssh_passes_other_exceptions_witness :
  fst (connect_ssh unreachable_network "host" 22 "user" "secret" 30 fresh_world)
    = Raise (OtherException "Connection refused")
  /\ logs (snd (connect_ssh unreachable_network "host" 22 "user" "secret" 30 fresh_world))
     = (logs fresh_world
          ++ [{| log_level := INFO;
                 log_text := "Connecting to SSH server at {hostname}:{port}";
                 log_args := [LStr "host"; LInt 22] |}])%list.
Proof.
  exact (connect_ssh_passes_other_exceptions unreachable_network "host" 22 "user" "secret"
           30 fresh_world (OtherException "Connection refused") eq_refl eq_refl).
Defined.

(** X3. What [connect_ssh] logs: first the host and the port, at level
    [INFO]; then, after a connection, one more [INFO] record without
    values; after an [asyncssh.Error], one [ERROR] record with that
    exception, in the transport's wording, which may name the user; after
    any other exception nothing.  The only call made is the one to
    [asyncssh.connect]. *)
Theorem connect_ssh_log_records (net : Network)
    hostname port username password ka (w : World) :
  logs (snd (connect_ssh net hostname port username password ka w))
    = (logs w
         ++ {| log_level := INFO;
               log_text := "Connecting to SSH server at {hostname}:{port}";
               log_args := [LStr hostname; LInt port] |}
         :: connect_log_tail (net (connect_args hostname port username password ka)))%list
  /\ calls (snd (connect_ssh net hostname port username password ka w))
     = (calls w ++ [CConnect (connect_args hostname port username password ka)])%list.
Proof.
  unfold connect_ssh, connect_log_tail, try_except, bind, log, effect, lift; cbn.
  destruct (net _) as [c|e]; cbn.
  - split; [now rewrite <- app_assoc | reflexivity].
  - destruct (is_asyncssh_Error e); cbn;
      split; try reflexivity; now rewrite <- app_assoc.
Qed.

(** ** File transfer and remote file probe *)

(** X4. When the SFTP subsystem cannot be opened and the failure is an
    SFTP error, no transfer call is issued at all, and the four operations
    answer each in its own way: the upload and the existence check with
    [False], the search with nothing, the download with a [ValueError]. *)
Theorem sftp_unavailable (os_path_join : string -> string -> string)
    (ssh_client : SSHClient) (a b c : string) (w : World) (e : exn) :
  start_sftp_client ssh_client = Failure e ->
  is_SFTPError e = true ->
  upload_file ssh_client a b c w
    = (Ok false,
       add_log {| log_level := ERROR;
                  log_text := "SFTP error during file upload: {sftp_error}";
                  log_args := [LExn e] |} (record CStartSftp w))
  /\ check_remote_file ssh_client a w = (Ok false, record CStartSftp w)
  /\ find_file ssh_client a b w = (Ok None, record CStartSftp w)
  /\ download_file os_path_join ssh_client a b c w
     = (Raise (ValueError ("SFTP error during file download: " ++ str_exn e) (Some e)),
        record CStartSftp w).
Proof.
  intros S K. run_sftp. rewrite S; cbn.
  destruct e; try discriminate; repeat split.
Qed.

Lemma sftp_unavailable_witness :
  upload_file (no_sftp_client (SFTPError "Failure")) "a" "/srv" "a" fresh_world
    = (Ok false,
       add_log {| log_level := ERROR;
                  log_text := "SFTP error during file upload: {sftp_error}";
                  log_args := [LExn (SFTPError "Failure")] |}
         (record CStartSftp fresh_world))
  /\ check_remote_file (no_sftp_client (SFTPError "Failure")) "a" fresh_world
     = (Ok false, record CStartSftp fresh_world)
  /\ find_file (no_sftp_client (SFTPError "Failure")) "a" "/srv" fresh_world
     = (Ok None, record CStartSftp fresh_world)
  /\ download_file posix_join (no_sftp_client (SFTPError "Failure")) "a" "/srv" "a"
       fresh_world
     = (Raise (ValueError "SFTP error during file download: Failure"
                 (Some (SFTPError "Failure"))),
        record CStartSftp fresh_world).
Proof.
  exact (sftp_unavailable posix_join (no_sftp_client (SFTPError "Failure"))
           "a" "/srv" "a" fresh_world (SFTPError "Failure") eq_refl eq_refl).
Defined.

(** X5. The four SFTP operations catch only what their [except] clauses
    name.  A failure of the transfer of any other class leaves them
    unchanged: for the upload and the download one that is neither a
    [FileNotFoundError] nor an SFTP error, for the existence check and the
    search one that is not an SFTP error, a [FileNotFoundError]
    included. *)
Theorem sftp_operations_pass_other_exceptions
    (os_path_join : string -> string -> string) (ssh_client : SSHClient)
    (local_file_path remote_folder new_filename remote_file_path local_folder
       remote_directory pre : string) (w : World) (e : exn) :
  (transfer_up ssh_client local_file_path (remote_folder ++ "/" ++ new_filename) = Some e ->
   is_FileNotFoundError e = false -> is_SFTPError e = false ->
   fst (upload_file ssh_client local_file_path remote_folder new_filename w) = Raise e)
  /\ (fst (transfer_down ssh_client remote_file_path
             (os_path_join local_folder new_filename) (local_fs w)) = Some e ->
      is_FileNotFoundError e = false -> is_SFTPError e = false ->
      fst (download_file os_path_join ssh_client remote_file_path local_folder
             new_filename w) = Raise e)
  /\ (existence ssh_client remote_file_path = Failure e ->
      is_SFTPError e = false ->
      fst (check_remote_file ssh_client remote_file_path w) = Raise e)
  /\ (listing ssh_client remote_directory = Failure e ->
      is_SFTPError e = false ->
      fst (find_file ssh_client remote_directory pre w) = Raise e).
Proof.
  split; [|split; [|split]].
  - apply upload_file_other_exceptions_propagate.
  - intros T F S. run_sftp.
    destruct (start_sftp_client ssh_client) as [sftp|e0]; cbn in *.
    + destruct (sftp_get sftp _ _ _) as [[e1|] fs]; cbn in *; [|discriminate].
      injection T as ->. now rewrite F, S.
    + injection T as ->. now rewrite F, S.
  - apply check_remote_file_other_exceptions_propagate.
  - intros L S. run_sftp.
    destruct (start_sftp_client ssh_client) as [sftp|e0]; cbn.
    + rewrite L; cbn. now rewrite S.
    + injection L as ->. now rewrite S.
Qed.

Lemma sftp_operations_pass_other_exceptions_witness :
  fst (upload_file lossy_client "a" "/srv" "a" fresh_world)
    = Raise (AsyncsshError "Connection lost")
  /\ fst (download_file posix_join lossy_client "/srv/a" "/tmp" "a" fresh_world)
     = Raise (AsyncsshError "Connection lost")
  /\ fst (check_remote_file (no_sftp_client (FileNotFoundError "x" None)) "/srv/a"
            fresh_world)
     = Raise (FileNotFoundError "x" None)
  /\ fst (find_file (no_sftp_client (FileNotFoundError "x" None)) "/srv" "a" fresh_world)
     = Raise (FileNotFoundError "x" None).
Proof.
  destruct (sftp_operations_pass_other_exceptions posix_join lossy_client
              "a" "/srv" "a" "/srv/a" "/tmp" "/srv" "a" fresh_world
              (AsyncsshError "Connection lost")) as (Hup & Hdown & _).
  destruct (sftp_operations_pass_other_exceptions posix_join
              (no_sftp_client (FileNotFoundError "x" None))
              "a" "/srv" "a" "/srv/a" "/tmp" "/srv" "a" fresh_world
              (FileNotFoundError "x" None)) as (_ & _ & Hcheck & Hfind).
  split; [|split; [|split]].
  - exact (Hup eq_refl eq_refl eq_refl).
  - exact (Hdown eq_refl eq_refl eq_refl).
  - exact (Hcheck eq_refl eq_refl).
  - exact (Hfind eq_refl eq_refl).
Defined.

(** X6. The existence check and the search each open one SFTP client,
    issue one call on it ([exists] of the path, [listdir] of the directory,
    as given) and leave the client again, whether that call raised or not
    and whatever they then return or raise. *)
Theorem probes_issue_one_call (ssh_client : SSHClient) (sftp : SFTPClient)
    (remote_file_path remote_directory pre : string) (w : World) :
  start_sftp_client ssh_client = Success sftp ->
  calls (snd (check_remote_file ssh_client remote_file_path w))
    = (calls w ++ [CStartSftp; CExists remote_file_path; CSftpExit])%list
  /\ calls (snd (find_file ssh_client remote_directory pre w))
     = (calls w ++ [CStartSftp; CListdir remote_directory; CSftpExit])%list.
Proof.
  intros S. run_sftp. rewrite S; cbn. split.
  - destruct (sftp_exists sftp remote_file_path) as [b|e]; cbn;
      [|destruct (is_SFTPError e); cbn]; now rewrite <- !app_assoc.
  - destruct (sftp_listdir sftp remote_directory) as [l|e]; cbn;
      [|destruct (is_SFTPError e); cbn]; now rewrite <- !app_assoc.
Qed.

Lemma probes_issue_one_call_witness :
  calls (snd (check_remote_file sample_client "/nodir/a.txt" fresh_world))
    = (calls fresh_world ++ [CStartSftp; CExists "/nodir/a.txt"; CSftpExit])%list
  /\ calls (snd (find_file sample_client "/data" "ab" fresh_world))
     = (calls fresh_world ++ [CStartSftp; CListdir "/data"; CSftpExit])%list.
Proof.
  exact (probes_issue_one_call sample_client sample_sftp "/nodir/a.txt" "/data" "ab"
           fresh_world eq_refl).
Defined.

(** X7. [download_file] asks for the remote path as given and the local
    path [os.path.join(local_folder, new_filename)]; it looks for the local
    file, under that same path, only when the transfer raised nothing, and
    it leaves the SFTP client in both cases. *)
Theorem download_file_calls (os_path_join : string -> string -> string)
    (ssh_client : SSHClient) (sftp : SFTPClient)
    (remote_file_path local_folder new_filename : string) (w : World) :
  start_sftp_client ssh_client = Success sftp ->
  calls (snd (download_file os_path_join ssh_client remote_file_path local_folder
                new_filename w))
  = match fst (sftp_get sftp remote_file_path (os_path_join local_folder new_filename)
                 (local_fs w)) with
    | None =>
        (calls w ++ [CStartSftp;
                     CGet remote_file_path (os_path_join local_folder new_filename);
                     CPathExists (os_path_join local_folder new_filename);
                     CSftpExit])%list
    | Some _ =>
        (calls w ++ [CStartSftp;
                     CGet remote_file_path (os_path_join local_folder new_filename);
                     CSftpExit])%list
    end.
Proof.
  intros S. run_sftp. rewrite S; cbn.
  destruct (sftp_get sftp _ _ _) as [[e|] fs]; cbn.
  - destruct (is_FileNotFoundError e); cbn;
      [|destruct (is_SFTPError e); cbn]; now rewrite <- !app_assoc.
  - now rewrite <- !app_assoc.
Qed.

Lemma download_file_calls_witness :
  calls (snd (download_file posix_join sample_client "/denied/a" "/tmp/" "a" fresh_world))
  = match fst (sftp_get sample_sftp "/denied/a" (posix_join "/tmp/" "a")
                 (local_fs fresh_world)) with
    | None =>
        (calls fresh_world ++ [CStartSftp; CGet "/denied/a" (posix_join "/tmp/" "a");
                               CPathExists (posix_join "/tmp/" "a"); CSftpExit])%list
    | Some _ =>
        (calls fresh_world ++ [CStartSftp; CGet "/denied/a" (posix_join "/tmp/" "a");
                               CSftpExit])%list
    end.
Proof.
  exact (download_file_calls posix_join sample_client sample_sftp "/denied/a" "/tmp/" "a"
           fresh_world eq_refl).
Defined.

(** X8. With the empty prefix every name matches, so [find_file] returns
    the first entry of the listing, whatever it is, and nothing for an
    empty listing. *)
Theorem find_file_empty_prefix (ssh_client : SSHClient) (remote_directory : string)
    (names : list string) (w : World) :
  listing ssh_client remote_directory = Success names ->
  fst (find_file ssh_client remote_directory "" w) = Ok (hd_error names).
Proof.
  intros L. run_sftp.
  destruct (start_sftp_client ssh_client) as [sftp|e]; [|discriminate].
  cbn. rewrite L; cbn. destruct names as [|f rest]; [reflexivity|].
  cbn. now destruct f.
Qed.

Lemma find_file_empty_prefix_witness :
  fst (find_file reordered_client "/data" "" fresh_world) = Ok (Some "abd.txt").
Proof.
  exact (find_file_empty_prefix reordered_client "/data" ["abd.txt"; "xyz.txt"; "abc.txt"]
           fresh_world eq_refl).
Defined.

(** X9. [download_file], [check_remote_file] and [find_file] write nothing
    to the log, also when they fail; [upload_file] writes one record, at
    level [ERROR], exactly when it returns [False]. *)
Theorem sftp_operations_logging (os_path_join : string -> string -> string)
    (ssh_client : SSHClient) (a b c : string) (w : World) :
  logs (snd (download_file os_path_join ssh_client a b c w)) = logs w
  /\ logs (snd (check_remote_file ssh_client a w)) = logs w
  /\ logs (snd (find_file ssh_client a b w)) = logs w
  /\ (fst (upload_file ssh_client a b c w) = Ok false ->
      exists r, logs (snd (upload_file ssh_client a b c w)) = (logs w ++ [r])%list
                /\ log_level r = ERROR)
  /\ (fst (upload_file ssh_client a b c w) <> Ok false ->
      logs (snd (upload_file ssh_client a b c w)) = logs w).
Proof.
  run_sftp. repeat split; collaborator_cases;
    try reflexivity; try discriminate; try congruence; intros;
    try (eexists; split; reflexivity); try congruence.
Qed.

Lemma sftp_operations_logging_witness :
  (exists r,
     logs (snd (upload_file sample_client "missing.txt" "/srv" "a.txt" fresh_world))
       = (logs fresh_world ++ [r])%list
     /\ log_level r = ERROR)
  /\ logs (snd (upload_file sample_client "build.tar" "/srv" "a.txt" fresh_world))
     = logs fresh_world.
Proof.
  destruct (sftp_operations_logging posix_join sample_client "missing.txt" "/srv" "a.txt"
              fresh_world) as (_ & _ & _ & Hfalse & _).
  destruct (sftp_operations_logging posix_join sample_client "build.tar" "/srv" "a.txt"
              fresh_world) as (_ & _ & _ & _ & Htrue).
  split; [exact (Hfalse eq_refl) | apply Htrue; discriminate].
Defined.

(** ** Command execution *)

(** X10. An exception met while the process channel is opened that is
    neither an [asyncssh.Error] nor an [asyncio.TimeoutError] leaves
    [execute_command] unchanged, in both modes, after the single call that
    tried to open the channel. *)
Theorem execute_command_passes_other_exceptions
    (bytes_decode : string -> string -> list byte -> string) (fuel : nat)
    (ssh_client : SSHClient) (command : string) (wait_for_response : bool)
    (check_interval : Z) (timeout : option Z) (w : World) (e : exn) :
  create_process ssh_client command = Failure e ->
  is_asyncssh_Error e = false ->
  is_TimeoutError e = false ->
  fst (execute_command bytes_decode fuel ssh_client command wait_for_response
         check_interval timeout w) = Raise e
  /\ calls (snd (execute_command bytes_decode fuel ssh_client command wait_for_response
                   check_interval timeout w))
     = (calls w ++ [CCreateProcess command])%list.
Proof.
  intros Hc A T. run_exec; cbn. rewrite Hc; cbn. rewrite A, T. split; reflexivity.
Qed.

Lemma execute_command_passes_other_exceptions_witness :
  fst (execute_command sample_decode 0 (failing_client (OtherException "Broken pipe"))
         "ls" true 10 None fresh_world) = Raise (OtherException "Broken pipe")
  /\ calls (snd (execute_command sample_decode 0
                   (failing_client (OtherException "Broken pipe"))
                   "ls" true 10 None fresh_world))
     = (calls fresh_world ++ [CCreateProcess "ls"])%list.
Proof.
  exact (execute_command_passes_other_exceptions sample_decode 0
           (failing_client (OtherException "Broken pipe")) "ls" true 10 None fresh_world
           (OtherException "Broken pipe") eq_refl eq_refl eq_refl).
Defined.

(** X11. An [asyncio.TimeoutError] raised while the channel is opened
    that is not an [asyncssh.Error] is reported as a timed out command,
    also in the mode that does not wait and when no timeout was given: the
    text then says [None] for the timeout.  An [asyncssh.TimeoutError],
    which is of both classes, is caught by the clause that comes first and
    becomes the [ValueError] of an execution error. *)
Theorem execute_command_timeout_error_at_dispatch
    (bytes_decode : string -> string -> list byte -> string) (fuel : nat)
    (ssh_client : SSHClient) (command : string) (wait_for_response : bool)
    (check_interval : Z) (timeout : option Z) (w : World) (e : exn) :
  create_process ssh_client command = Failure e ->
  is_TimeoutError e = true ->
  fst (execute_command bytes_decode fuel ssh_client command wait_for_response
         check_interval timeout w)
    = if is_asyncssh_Error e
      then Raise (ValueError ("SSH error during command execution: " ++ str_exn e)
                    (Some e))
      else Raise (TimeoutError ("Command execution timed out after "
                                ++ str_opt_int timeout ++ " seconds.") (Some e)).
Proof.
  intros Hc T. run_exec; cbn. rewrite Hc; cbn.
  destruct (is_asyncssh_Error e); cbn; [reflexivity|]. now rewrite T.
Qed.

Lemma execute_command_timeout_error_at_dispatch_witness :
  fst (execute_command sample_decode 0 (failing_client (TimeoutError "" None))
         "ls" false 10 None fresh_world)
    = Raise (TimeoutError "Command execution timed out after None seconds."
               (Some (TimeoutError "" None)))
  /\ fst (execute_command sample_decode 0
            (failing_client (AsyncsshTimeoutError "Process timed out"))
            "ls" true 10 (Some 5%Z) fresh_world)
     = Raise (ValueError "SSH error during command execution: Process timed out"
                (Some (AsyncsshTimeoutError "Process timed out"))).
Proof.
  split.
  - exact (execute_command_timeout_error_at_dispatch sample_decode 0
             (failing_client (TimeoutError "" None)) "ls" false 10 None fresh_world
             (TimeoutError "" None) eq_refl eq_refl).
  - exact (execute_command_timeout_error_at_dispatch sample_decode 0
             (failing_client (AsyncsshTimeoutError "Process timed out")) "ls" true 10
             (Some 5%Z) fresh_world (AsyncsshTimeoutError "Process timed out")
             eq_refl eq_refl).
Defined.

(** X12. When the timeout expires, [execute_command] has read neither
    stream nor the exit status, it leaves the process channel, and it
    raises at the deadline: the clock stands [timeout] seconds after the
    start (at the start, for a negative timeout), also for a process that
    never ends. *)
Theorem execute_command_expiry (bytes_decode : string -> string -> list byte -> string)
    (fuel : nat) (ssh_client : SSHClient) (command : string) (check_interval : Z)
    (timeout : Z) (w : World) (p : SSHProcess) :
  create_process ssh_client command = Success p ->
  (forall d, proc_runtime p = Some d -> inject_Z timeout < d) ->
  calls (snd (execute_command bytes_decode fuel ssh_client command true
                check_interval (Some timeout) w))
    = (calls w ++ [CCreateProcess command; CTime; CProcWaitClosed; CProcessExit])%list
  /\ clock (snd (execute_command bytes_decode fuel ssh_client command true
                   check_interval (Some timeout) w))
     = clock w + Qmax 0 (inject_Z timeout).
Proof.
  intros Hp Hlate. run_exec; cbn. rewrite Hp; cbn.
  destruct (proc_runtime p) as [d|] eqn:Hd; cbn.
  - specialize (Hlate d eq_refl).
    destruct (Qlt_le_dec _ _) as [L|L]; cbn.
    + exfalso. rewrite wait_duration in L.
      destruct (Q.max_spec 0 d) as [[A E]|[A E]]; rewrite E in L; lra.
    + split; [now rewrite <- !app_assoc | reflexivity].
  - split; [now rewrite <- !app_assoc | reflexivity].
Qed.

Lemma execute_command_expiry_witness :
  calls (snd (execute_command sample_decode 0 sample_client "sleep forever" true 10
                (Some 60%Z) fresh_world))
    = (calls fresh_world
         ++ [CCreateProcess "sleep forever"; CTime; CProcWaitClosed; CProcessExit])%list
  /\ clock (snd (execute_command sample_decode 0 sample_client "sleep forever" true 10
                   (Some 60%Z) fresh_world))
     = clock fresh_world + Qmax 0 (inject_Z 60).
Proof.
  apply (execute_command_expiry sample_decode 0 sample_client "sleep forever" 10 60
           fresh_world
           {| proc_runtime := None; proc_stdout := Success (Text "");
              proc_stderr := Success (Text ""); proc_exit_status := 0 |} eq_refl).
  intros d H. discriminate H.
Defined.

(** The polling loop never waits for something that does not come. *)
Lemma poll_until_ready_never_hangs (fuel : nat) (process : Process)
    (check_interval : Z) (w : World) :
  fst (poll_until_ready fuel process check_interval w) <> Hangs.
Proof. destruct fuel; discriminate. Qed.

(** X13. Waiting without a timeout for a process that never ends,
    [execute_command] never comes back; with a timeout, waiting or not,
    and in the mode that does not wait, it never stays in an [await] for
    good. *)
Theorem execute_command_hangs_only_without_timeout
    (bytes_decode : string -> string -> list byte -> string) (fuel : nat)
    (ssh_client : SSHClient) (command : string) (check_interval : Z) (w : World) :
  (forall p,
     create_process ssh_client command = Success p ->
     proc_runtime p = None ->
     fst (execute_command bytes_decode fuel ssh_client command true check_interval
            None w) = Hangs)
  /\ (forall t,
        fst (execute_command bytes_decode fuel ssh_client command true check_interval
               (Some t) w) <> Hangs)
  /\ (forall timeout,
        fst (execute_command bytes_decode fuel ssh_client command false check_interval
               timeout w) <> Hangs).
Proof.
  split; [|split].
  - intros p Hp Hn. run_exec; cbn. rewrite Hp; cbn. now rewrite Hn.
  - intros t. run_exec; cbn.
    destruct (create_process ssh_client command) as [p|e]; cbn.
    + destruct (proc_runtime p) as [d|]; cbn.
      * destruct (Qlt_le_dec _ _); cbn; [|discriminate].
        destruct (proc_stdout p) as [out|e]; cbn.
        -- destruct (proc_stderr p) as [err|e]; cbn; [discriminate|].
           destruct (is_asyncssh_Error e); cbn; [discriminate|].
           destruct (is_TimeoutError e); cbn; discriminate.
        -- destruct (is_asyncssh_Error e); cbn; [discriminate|].
           destruct (is_TimeoutError e); cbn; discriminate.
      * discriminate.
    + destruct (is_asyncssh_Error e); cbn; [discriminate|].
      destruct (is_TimeoutError e); cbn; discriminate.
  - intros timeout. run_exec; cbn.
    destruct (create_process ssh_client command) as [p|e]; cbn.
    + match goal with
      | |- context [poll_until_ready ?f ?pr ?ci ?w0] =>
          pose proof (poll_until_ready_never_hangs f pr ci w0) as NH;
          destruct (poll_until_ready f pr ci w0) as [[[]|e| |] w3]; cbn in *
      end; try discriminate.
      * destruct (is_asyncssh_Error e); cbn; [discriminate|].
        destruct (is_TimeoutError e); cbn; discriminate.
      * now exfalso.
    + destruct (is_asyncssh_Error e); cbn; [discriminate|].
      destruct (is_TimeoutError e); cbn; discriminate.
Qed.

Lemma execute_command_hangs_only_without_timeout_witness :
  fst (execute_command sample_decode 0 sample_client "sleep forever" true 10 None
         fresh_world) = Hangs.
Proof.
  destruct (execute_command_hangs_only_without_timeout sample_decode 0 sample_client
              "sleep forever" 10 fresh_world) as [Hnever _].
  exact (Hnever {| proc_runtime := None; proc_stdout := Success (Text "");
                   proc_stderr := Success (Text ""); proc_exit_status := 0 |}
           eq_refl eq_refl).
Defined.

(** The run of the waiting branch when the wait is over in time and both
    streams can be read. *)
Lemma waited_run (bytes_decode : string -> string -> list byte -> string)
    (fuel : nat) (ssh_client : SSHClient) (command : string) (check_interval : Z)
    (timeout : option Z) (w : World) (p : SSHProcess) (d : Q) (out err : stream) :
  create_process ssh_client command = Success p ->
  proc_runtime p = Some d ->
  ends_in_time p timeout ->
  proc_stdout p = Success out ->
  proc_stderr p = Success err ->
  fst (execute_command bytes_decode fuel ssh_client command true check_interval
         timeout w)
    = Ok (decoded bytes_decode out, proc_exit_status p, Int (round (Qmax 0 d)))
  /\ logs (snd (execute_command bytes_decode fuel ssh_client command true
                  check_interval timeout w))
     = (logs w
          ++ [{| log_level := INFO; log_text := "Executing command: {command}";
                 log_args := [LStr command] |};
              {| log_level := INFO;
                 log_text := "Command executed successfully: {command}";
                 log_args := [LStr command] |};
              {| log_level := INFO; log_text := "stdout: {stdout}";
                 log_args := [LStream out] |};
              {| log_level := ERROR; log_text := "stderr: {stderr}";
                 log_args := [LStream err] |};
              {| log_level := INFO;
                 log_text := "Execution time: {execution_time} seconds";
                 log_args := [LInt (round (Qmax 0 d))] |}])%list.
Proof.
  intros Hp Hd T Hout Herr.
  assert (R : round (Qmax (clock w) (clock w + d) - clock w) = round (Qmax 0 d))
    by apply round_compat, wait_duration.
  unfold ends_in_time in T. rewrite Hd in T.
  run_exec; cbn. rewrite Hp; cbn. rewrite Hd; cbn.
  destruct timeout as [t|]; cbn.
  - destruct (Qlt_le_dec _ _) as [L|L]; cbn.
    + rewrite Hout; cbn. rewrite Herr; cbn. rewrite R.
      split; [reflexivity | now rewrite <- !app_assoc].
    + exfalso. rewrite wait_duration in L. lra.
  - rewrite Hout; cbn. rewrite Herr; cbn. rewrite R.
    split; [reflexivity | now rewrite <- !app_assoc].
Qed.

(** X16. A waited command that succeeds adds five records to the log, and
    the one with the content of standard error is written at level [ERROR]
    whatever that content and the exit status are; the other four are at
    level [INFO]. *)
Theorem execute_command_logs_stderr_as_error
    (bytes_decode : string -> string -> list byte -> string) (fuel : nat)
    (ssh_client : SSHClient) (command : string) (check_interval : Z)
    (timeout : option Z) (w : World) (p : SSHProcess) (d : Q) (out err : stream) :
  create_process ssh_client command = Success p ->
  proc_runtime p = Some d ->
  ends_in_time p timeout ->
  proc_stdout p = Success out ->
  proc_stderr p = Success err ->
  exists executing executed stdout_record time_record,
    logs (snd (execute_command bytes_decode fuel ssh_client command true
                 check_interval timeout w))
      = (logs w ++ [executing; executed; stdout_record;
                    {| log_level := ERROR; log_text := "stderr: {stderr}";
                       log_args := [LStream err] |};
                    time_record])%list
    /\ map log_level [executing; executed; stdout_record; time_record]
       = [INFO; INFO; INFO; INFO]
    /\ log_args stdout_record = [LStream out].
Proof.
  intros Hp Hd T Hout Herr.
  destruct (waited_run bytes_decode fuel ssh_client command check_interval timeout w
              p d out err Hp Hd T Hout Herr) as [_ L].
  do 4 eexists. split; [exact L|]. split; reflexivity.
Qed.

Lemma execute_command_logs_stderr_as_error_witness :
  exists executing executed stdout_record time_record,
    logs (snd (execute_command sample_decode 0 (timed_client 0) "true" true 10
                 (Some 5%Z) fresh_world))
      = (logs fresh_world
           ++ [executing; executed; stdout_record;
               {| log_level := ERROR; log_text := "stderr: {stderr}";
                  log_args := [LStream (Text "warning")] |};
               time_record])%list
    /\ map log_level [executing; executed; stdout_record; time_record]
       = [INFO; INFO; INFO; INFO]
    /\ log_args stdout_record = [LStream (Text "done")].
Proof.
  exact (execute_command_logs_stderr_as_error sample_decode 0 (timed_client 0) "true"
           10 (Some 5%Z) fresh_world (sample_process "true" 0) 0
           (Text "done") (Text "warning") eq_refl eq_refl eq_refl eq_refl eq_refl).
Defined.

(** X18. Arguments without effect: when waiting for the response, the
    check interval changes nothing in what [execute_command] does; when
    not waiting, and the channel could be opened, the timeout changes
    nothing. *)
Theorem execute_command_unused_arguments
    (bytes_decode : string -> string -> list byte -> string) (fuel : nat)
    (ssh_client : SSHClient) (command : string) (w : World) :
  (forall check_interval check_interval' timeout,
     execute_command bytes_decode fuel ssh_client command true check_interval timeout w
     = execute_command bytes_decode fuel ssh_client command true check_interval'
         timeout w)
  /\ (forall p check_interval timeout timeout',
        create_process ssh_client command = Success p ->
        execute_command bytes_decode fuel ssh_client command false check_interval
          timeout w
        = execute_command bytes_decode fuel ssh_client command false check_interval
            timeout' w).
Proof.
  split; [reflexivity|].
  intros p ci t t' Hp. run_exec; cbn. rewrite Hp; cbn.
  destruct fuel as [|fuel]; reflexivity.
Qed.

Lemma execute_command_unused_arguments_witness :
  execute_command sample_decode 4 sample_client "make" false 1 None fresh_world
  = execute_command sample_decode 4 sample_client "make" false 1 (Some 0%Z) fresh_world.
Proof.
  destruct (execute_command_unused_arguments sample_decode 4 sample_client "make"
              fresh_world) as [_ H].
  exact (H (sample_process "make" (5 # 2)) 1%Z None (Some 0%Z) eq_refl).
Defined.

(** ** The session stays open *)

Lemma frame_refl (P : Call -> Prop) (w : World) : frame P w w.
Proof.
  split; [reflexivity|]. split; [reflexivity|].
  exists []. split; [now rewrite app_nil_r | constructor].
Qed.

Lemma frame_trans (P : Call -> Prop) (w1 w2 w3 : World) :
  frame P w1 w2 -> frame P w2 w3 -> frame P w1 w3.
Proof.
  intros (A1 & B1 & l1 & C1 & F1) (A2 & B2 & l2 & C2 & F2).
  split; [congruence|]. split; [congruence|].
  exists (l1 ++ l2)%list. split.
  - now rewrite C2, C1, app_assoc.
  - apply Forall_app. now split.
Qed.

Lemma frame_record (P : Call -> Prop) (c : Call) (w : World) :
  P c -> frame P w (record c w).
Proof.
  intros H. split; [reflexivity|]. split; [reflexivity|].
  exists [c]. split; [reflexivity | now repeat constructor].
Qed.

Lemma frame_same_session (P : Call -> Prop) (w w' : World) :
  close_requested w' = close_requested w ->
  closed w' = closed w ->
  calls w' = calls w ->
  frame P w w'.
Proof.
  intros A B C. split; [exact A|]. split; [exact B|].
  exists []. split; [now rewrite app_nil_r | constructor].
Qed.

Lemma respects_ret (P : Call -> Prop) {A} (a : A) : respects P (ret a).
Proof. intros w. apply frame_refl. Qed.

Lemma respects_raise (P : Call -> Prop) {A} (e : exn) : respects P (@raise A e).
Proof. intros w. apply frame_refl. Qed.

Lemma respects_lift (P : Call -> Prop) {A} (r : result A) : respects P (lift r).
Proof. destruct r; [apply respects_ret | apply respects_raise]. Qed.

Lemma respects_log (P : Call -> Prop) lvl text args : respects P (log lvl text args).
Proof. intros w. now apply frame_same_session. Qed.

Lemma respects_record (P : Call -> Prop) (c : Call) :
  P c -> respects P (effect (record c)).
Proof. intros H w. now apply frame_record. Qed.

Lemma respects_bind (P : Call -> Prop) {A B} (m : M A) (k : A -> M B) :
  respects P m -> (forall a, respects P (k a)) -> respects P (bind m k).
Proof.
  intros Hm Hk w. unfold bind.
  specialize (Hm w). destruct (m w) as [[a|e| |] w1]; cbn in *; auto.
  eapply frame_trans; [exact Hm | apply Hk].
Qed.

Lemma respects_try_except (P : Call -> Prop) {A} (body : M A)
    (handler : exn -> option (M A)) :
  respects P body ->
  (forall e h, handler e = Some h -> respects P h) ->
  respects P (try_except body handler).
Proof.
  intros Hb Hh w. unfold try_except.
  specialize (Hb w). destruct (body w) as [[a|e| |] w1]; cbn in *; auto.
  destruct (handler e) as [h|] eqn:E; cbn; auto.
  eapply frame_trans; [exact Hb | apply (Hh e h E)].
Qed.

Lemma respects_async_with (P : Call -> Prop) {R A} (enter : M R) (exit_ : M unit)
    (body : R -> M A) :
  respects P enter -> respects P exit_ -> (forall r, respects P (body r)) ->
  respects P (async_with enter exit_ body).
Proof.
  intros He Hx Hb w. unfold async_with.
  specialize (He w). destruct (enter w) as [[r|e| |] w1]; cbn in *; auto.
  specialize (Hb r w1). destruct (body r w1) as [[a|e| |] w2]; cbn in *.
  - eapply frame_trans; [exact He|]. eapply frame_trans; [exact Hb | apply Hx].
  - eapply frame_trans; [exact He|]. eapply frame_trans; [exact Hb | apply Hx].
  - eapply frame_trans; eassumption.
  - eapply frame_trans; eassumption.
Qed.

Lemma respects_poll (fuel : nat) (process : Process) (check_interval : Z) :
  respects leaves_open (poll_until_ready fuel process check_interval).
Proof. destruct fuel; intros w; apply frame_refl. Qed.

Lemma respects_wait_closed (process : Process) :
  respects leaves_open (proc_wait_closed process).
Proof.
  intros w. unfold proc_wait_closed.
  destruct (finish_time process); cbn.
  - eapply frame_trans; [apply (frame_record _ CProcWaitClosed); reflexivity|].
    now apply frame_same_session.
  - now apply frame_record.
Qed.

Lemma respects_wait_for {A} (aw : M A) (timeout : Z) :
  respects leaves_open aw -> respects leaves_open (wait_for aw timeout).
Proof.
  intros Ha w. unfold wait_for. specialize (Ha w).
  assert (X : frame leaves_open w
                (set_clock (clock w + Qmax 0 (inject_Z timeout)) (snd (aw w)))).
  { eapply frame_trans; [exact Ha | now apply frame_same_session]. }
  destruct (aw w) as [[a|e| |] w1]; cbn in *; auto;
    destruct (Qlt_le_dec _ _); cbn; auto.
Qed.

Lemma respects_put (sftp_client : SFTPClient) (local remote : string) :
  respects leaves_open (put sftp_client local remote).
Proof.
  unfold put. apply respects_bind; [now apply respects_record|].
  intros _. destruct (sftp_put _ _ _); [apply respects_raise | apply respects_ret].
Qed.

Lemma respects_get (sftp_client : SFTPClient) (remote local : string) :
  respects leaves_open (get sftp_client remote local).
Proof.
  intros w. unfold get.
  destruct (sftp_get _ _ _ _) as [[e|] fs]; cbn;
    (eapply frame_trans; [apply (frame_record _ (CGet remote local)); reflexivity|]);
    now apply frame_same_session.
Qed.

Lemma respects_os_path_exists (path : string) :
  respects leaves_open (os_path_exists path).
Proof. intros w. unfold os_path_exists; cbn. now apply frame_record. Qed.

Lemma respects_time_time : respects leaves_open time_time.
Proof. intros w. unfold time_time; cbn. now apply frame_record. Qed.

Lemma respects_proc_enter (ssh_client : SSHClient) (command : string) :
  respects leaves_open (proc_enter ssh_client command).
Proof.
  unfold proc_enter. apply respects_bind; [now apply respects_record|].
  intros _. apply respects_bind; [apply respects_lift|].
  intros p w. apply frame_refl.
Qed.

Ltac frame_step :=
  match goal with
  | H : None = Some _ |- _ => discriminate H
  | H : Some _ = Some _ |- _ => injection H as <-
  | H : execute_command_handler _ _ = Some _ |- _ =>
      unfold execute_command_handler in H
  | H : (if ?c then _ else _) = Some _ |- _ => destruct c
  | |- respects _ (try_except _ _) => apply respects_try_except; [|intros ? ? ?]
  | |- respects _ (async_with _ _ _) => apply respects_async_with; [| |intros ?]
  | |- respects _ (bind _ _) => apply respects_bind; [|intros ?]
  | |- respects _ (log _ _ _) => apply respects_log
  | |- respects _ (ret _) => apply respects_ret
  | |- respects _ (raise _) => apply respects_raise
  | |- respects _ (lift _) => apply respects_lift
  | |- respects _ (put _ _ _) => apply respects_put
  | |- respects _ (get _ _ _) => apply respects_get
  | |- respects _ (os_path_exists _) => apply respects_os_path_exists
  | |- respects _ time_time => apply respects_time_time
  | |- respects _ (proc_enter _ _) => apply respects_proc_enter
  | |- respects _ (poll_until_ready _ _ _) => apply respects_poll
  | |- respects _ (proc_wait_closed _) => apply respects_wait_closed
  | |- respects _ (wait_for _ _) => apply respects_wait_for
  | |- respects _ (effect (record _)) => apply respects_record; reflexivity
  | |- respects _ (match ?x with _ => _ end) => destruct x
  end.

(** X19. None of [connect_ssh], [upload_file], [download_file],
    [check_remote_file], [find_file] and [execute_command] closes the
    session: however they end, with a result, an exception or a timeout,
    they have called neither [close()] nor [wait_closed()] on it, the
    calls made before are still there in their order, and the state of the
    connection is what it was.  Closing is left to [disconnect_ssh]. *)
Theorem operations_leave_session_open
    (os_path_join : string -> string -> string)
    (bytes_decode : string -> string -> list byte -> string)
    (net : Network) (ssh_client : SSHClient) (a b c : string) (port ka : Z)
    (fuel : nat) (wait_for_response : bool) (check_interval : Z) (timeout : option Z) :
  respects leaves_open (connect_ssh net a port b c ka)
  /\ respects leaves_open (upload_file ssh_client a b c)
  /\ respects leaves_open (download_file os_path_join ssh_client a b c)
  /\ respects leaves_open (check_remote_file ssh_client a)
  /\ respects leaves_open (find_file ssh_client a b)
  /\ respects leaves_open
       (execute_command bytes_decode fuel ssh_client a wait_for_response
          check_interval timeout).
Proof.
  unfold connect_ssh, upload_file, download_file, check_remote_file, find_file,
    execute_command, execute_command_body, sftp_enter, sftp_exit, proc_exit,
    read_stdout, read_stderr, read_exit_status.
  repeat apply conj; repeat frame_step.
Qed.

(** X20. Once the process channel is open, [execute_command] leaves it on
    every way out: whether it returns, raises an execution error or times
    out, the last call it has issued is the exit of the process channel. *)
Theorem execute_command_releases_channel
    (bytes_decode : string -> string -> list byte -> string) (fuel : nat)
    (ssh_client : SSHClient) (command : string) (wait_for_response : bool)
    (check_interval : Z) (timeout : option Z) (w : World) (p : SSHProcess) :
  create_process ssh_client command = Success p ->
  fst (execute_command bytes_decode fuel ssh_client command wait_for_response
         check_interval timeout w) <> Hangs ->
  fst (execute_command bytes_decode fuel ssh_client command wait_for_response
         check_interval timeout w) <> OutOfFuel ->
  exists before,
    calls (snd (execute_command bytes_decode fuel ssh_client command wait_for_response
                  check_interval timeout w))
      = (before ++ [CProcessExit])%list.
Proof.
  intros Hp. run_exec; cbn. rewrite Hp; cbn.
  destruct wait_for_response; cbn.
  - destruct timeout as [t|]; cbn;
      (destruct (proc_runtime p) as [d|]; cbn;
       [|intros; first [eexists; reflexivity | congruence]]);
      try destruct (Qlt_le_dec _ _); cbn;
      try (destruct (proc_stdout p) as [out|e]; cbn;
           [destruct (proc_stderr p) as [err|e]; cbn|]);
      try (destruct (is_asyncssh_Error e); cbn;
           [|destruct (is_TimeoutError e); cbn]);
      intros; eexists; reflexivity.
  - match goal with
    | |- context [poll_until_ready ?f ?pr ?c ?w0] =>
        destruct (poll_until_ready f pr c w0) as [[[]|e| |] w3]; cbn
    end;
      try (destruct (is_asyncssh_Error e); cbn;
           [|destruct (is_TimeoutError e); cbn]);
      intros; first [eexists; reflexivity | congruence].
Qed.

Lemma execute_command_releases_channel_witness :
  exists before,
    calls (snd (execute_command sample_decode 0 lossy_client "ls" true 10 (Some 5%Z)
                  fresh_world))
      = (before ++ [CProcessExit])%list.
Proof.
  apply (execute_command_releases_channel sample_decode 0 lossy_client "ls" true 10
           (Some 5%Z) fresh_world
           {| proc_runtime := Some 1;
              proc_stdout := Failure (AsyncsshError "Connection lost");
              proc_stderr := Success (Text "");
              proc_exit_status := 0 |} eq_refl); discriminate.
Defined.
